(** * Vapor-compression cycle solver ([prueba.py], [simular_refrigerador])

    A shallow embedding of the four-state cycle computation and the
    properties its design document states about it.

    Numbers.  The program computes on Python floats wrapped in [pint]
    quantities.  The main embedding takes every magnitude as an exact
    rational ([Q]): rounding, overflow and the special float values are not
    part of it, an equation between computed magnitudes is stated up to
    [==] (equality of rationals), and an equation between values the
    program merely copies is stated with Leibniz equality.  What depends on
    the arithmetic itself (how the coefficient of performance and the two
    rates behave as the mass flow varies) is settled on a second embedding
    of the same function, [Flotante], whose numbers are IEEE binary64
    values.

    Units.  A [pint] quantity is represented by its magnitude in the unit
    the program gives it; each conversion the program asks for ([.to(...)])
    is a named function of the magnitude.

    The property library.  [CoolProp.PropsSI] is not part of the program: it
    is a parameter, a function from a query to either a number or a failure
    (the Python wrapper raises [ValueError] when no finite value exists).
    The solver runs in a small monad that reads the oracle, logs every query
    it sends, and stops at the first exception. *)

From Stdlib Require Import QArith Qfield Lqa Lia List String.
From Corelib Require Import PrimFloat.
Import ListNotations.

Local Open Scope Q_scope.

(** ** The property oracle *)

(** The property names the solver hands to [PropsSI]:
    ["H"], ["S"], ["P"], ["T"], ["Q"]. *)
Inductive propiedad : Type :=
| prop_H   (* specific enthalpy, J/kg *)
| prop_S   (* specific entropy, J/kg/K *)
| prop_P   (* pressure, Pa *)
| prop_T   (* temperature, K *)
| prop_Q.  (* vapor quality *)

Definition propiedad_eqb (a b : propiedad) : bool :=
  match a, b with
  | prop_H, prop_H | prop_S, prop_S | prop_P, prop_P
  | prop_T, prop_T | prop_Q, prop_Q => true
  | _, _ => false
  end.

(** One call [PropsSI(salida, nombre1, valor1, nombre2, valor2, "R134a")]. *)
Record consulta : Type := Consulta {
  salida  : propiedad;
  nombre1 : propiedad;
  valor1  : Q;
  nombre2 : propiedad;
  valor2  : Q
}.

(** [None] stands for the [ValueError] of a failed lookup. *)
Definition oraculo : Type := consulta -> option Q.

(** ** Exceptions and the solver monad *)

Inductive excepcion : Type :=
| ValueError (c : consulta)   (* raised by [PropsSI] *)
| ZeroDivisionError.          (* raised by float division *)

Inductive resultado (A : Type) : Type :=
| Ok (a : A)
| Raise (e : excepcion).
Arguments Ok {A} a.
Arguments Raise {A} e.

(** A computation reads the oracle and yields the queries it sent, in
    order, together with its outcome. *)
Definition M (A : Type) : Type := oraculo -> list consulta * resultado A.

Definition ret {A} (a : A) : M A := fun _ => ([], Ok a).

Definition bind {A B} (m : M A) (f : A -> M B) : M B :=
  fun o =>
    match m o with
    | (l1, Ok a) => let (l2, r) := f a o in (l1 ++ l2, r)
    | (l1, Raise e) => (l1, Raise e)
    end.

Notation "x <- m ;; k" := (bind m (fun x => k))
  (at level 61, m at next level, right associativity).

Definition PropsSI (out n1 : propiedad) (v1 : Q) (n2 : propiedad) (v2 : Q)
  : M Q :=
  fun o =>
    let c := Consulta out n1 v1 n2 v2 in
    ([c], match o c with
          | Some v => Ok v
          | None => Raise (ValueError c)
          end).

(** Python's [a / b] on float magnitudes. *)
Definition truediv (a b : Q) : M Q :=
  fun _ => ([], if Qeq_bool b 0 then Raise ZeroDivisionError else Ok (a / b)).

(** ** Unit conversions ([pint]) *)

(** [Q_(x, "degC").to("kelvin").magnitude] *)
Definition degC_to_kelvin (x : Q) : Q := x + (27315 # 100).

(** [Q_(x, "kelvin") + Q_(d, "delta_degC")], magnitude in kelvin. *)
Definition kelvin_mas_delta (x d : Q) : Q := x + d.

(** [x.to("kW").magnitude] for [x] in J/s. *)
Definition W_to_kW (x : Q) : Q := x / 1000.

(** [x - 273.15], a temperature in kelvin shown in degrees Celsius. *)
Definition kelvin_to_degC (x : Q) : Q := x - (27315 # 100).

(** ** The result dictionary *)

Record escalares : Type := Escalares {
  Trabajo_Compresor_kW : Q;
  Calor_Extraido_kW    : Q;
  COP                  : Q;
  Calidad_Evap         : Q;
  Temp_Descarga_C      : Q;
  Flujo_Masico_kg_s    : Q
}.

(** One entry of [resultados["states"]]. *)
Record estado : Type := Estado {
  P    : Q;
  T    : Q;
  h    : Q;
  s    : Q;
  desc : string
}.

(** [resultados["states"]], a dictionary with the fixed keys 1, 2, 3, 4. *)
Record estados : Type := Estados {
  estado1 : estado;
  estado2 : estado;
  estado3 : estado;
  estado4 : estado
}.

Record resultados : Type := Resultados {
  scalar : escalares;
  states : estados
}.

(** [resultados["states"][2]["T"] = t] *)
Definition asignar_T_estado2 (r : resultados) (t : Q) : resultados :=
  let e := states r in
  let e2 := estado2 e in
  {| scalar := scalar r;
     states := {| estado1 := estado1 e;
                  estado2 := {| P := P e2; T := t; h := h e2; s := s e2;
                                desc := desc e2 |};
                  estado3 := estado3 e;
                  estado4 := estado4 e |} |}.

(** ** The solver *)

(** The condenser approach, [Delta_T_cond = Q_(15, "delta_degC")]. *)
Definition Delta_T_cond : Q := 15.

(** [T_condensacion = T_ambiente + Delta_T_cond], in kelvin. *)
Definition T_condensacion (T_ambiente : Q) : Q :=
  kelvin_mas_delta T_ambiente Delta_T_cond.

(** [Trabajo_necesario = Flujo_masico * (h2 - h1)], in J/s. *)
Definition Trabajo_necesario (Flujo_masico h1 h2 : Q) : Q :=
  Flujo_masico * (h2 - h1).

(** [Q_evap = Flujo_masico * (h1 - h4)], in J/s. *)
Definition Q_evap (Flujo_masico h1 h4 : Q) : Q :=
  Flujo_masico * (h1 - h4).

Definition simular_refrigerador
    (T_ambiente_C T_interior_C Flujo_masico_kg_s : Q) : M resultados :=
  let T_ambiente := degC_to_kelvin T_ambiente_C in
  let T_interior := degC_to_kelvin T_interior_C in
  let Flujo_masico := Flujo_masico_kg_s in
  (* state 1: compressor inlet, saturated vapor *)
  h1 <- PropsSI prop_H prop_T T_interior prop_Q 1 ;;
  s1 <- PropsSI prop_S prop_T T_interior prop_Q 1 ;;
  (* state 2: condenser inlet *)
  let T_cond := T_condensacion T_ambiente in
  P_condensacion <- PropsSI prop_P prop_T T_cond prop_Q 0 ;;
  let s2 := s1 in
  let P2 := P_condensacion in
  h2 <- PropsSI prop_H prop_P P2 prop_S s2 ;;
  let trabajo := Trabajo_necesario Flujo_masico h1 h2 in
  (* state 3: condenser outlet, saturated liquid *)
  let P3 := P2 in
  h3 <- PropsSI prop_H prop_P P3 prop_Q 0 ;;
  T3 <- PropsSI prop_T prop_P P3 prop_Q 0 ;;
  (* state 4: evaporator inlet *)
  let h4 := h3 in
  P4 <- PropsSI prop_P prop_T T_interior prop_Q 1 ;;
  x4 <- PropsSI prop_Q prop_P P4 prop_H h4 ;;
  let q_evap := Q_evap Flujo_masico h1 h4 in
  cop <- truediv q_evap trabajo ;;
  (* the dictionary literal, its values evaluated in source order *)
  t_descarga <- PropsSI prop_T prop_H h2 prop_P P2 ;;
  s3 <- PropsSI prop_S prop_P P3 prop_Q 0 ;;
  s4 <- PropsSI prop_S prop_P P4 prop_H h4 ;;
  let res :=
    {| scalar :=
         {| Trabajo_Compresor_kW := W_to_kW trabajo;
            Calor_Extraido_kW := W_to_kW q_evap;
            COP := cop;
            Calidad_Evap := x4;
            Temp_Descarga_C := kelvin_to_degC t_descarga;
            Flujo_Masico_kg_s := Flujo_masico |};
       states :=
         {| estado1 := Estado P4 T_interior h1 s1 "Entrada Compresor";
            estado2 := Estado P2 (kelvin_mas_delta T_ambiente Delta_T_cond)
                              h2 s2 "Entrada Condensador";
            estado3 := Estado P3 T3 h3 s3 "Salida Condensador";
            estado4 := Estado P4 T_interior h4 s4 "Entrada Evaporador" |} |} in
  (* the discharge temperature replaces the approximate one of state 2 *)
  T2_real <- PropsSI prop_T prop_H h2 prop_P P2 ;;
  ret (asignar_T_estado2 res T2_real).

(** What the caller receives, and the queries the call sent. *)
Definition solve (o : oraculo) (Ta Ti m : Q) : resultado resultados :=
  snd (simular_refrigerador Ta Ti m o).

Definition consultas (o : oraculo) (Ta Ti m : Q) : list consulta :=
  fst (simular_refrigerador Ta Ti m o).


(** ** A stand-in for the property library

    Used only to run the solver on concrete inputs.  It answers the query
    shapes the solver sends with a linear fluid: saturation pressure
    [100 T], saturated enthalpy [1000 T + 100000 x] at quality [x], and a
    vapor that leaves the compressor 20 K above saturation.  Any other
    query shape fails. *)
Definition oraculo_lineal : oraculo :=
  fun c =>
    let a := valor1 c in
    let b := valor2 c in
    match salida c, nombre1 c, nombre2 c with
    | prop_H, prop_T, prop_Q => Some (1000 * a + 100000 * b)
    | prop_S, prop_T, prop_Q => Some (a + 1000 * b)
    | prop_P, prop_T, prop_Q => Some (100 * a)
    | prop_H, prop_P, prop_S => Some (10 * a + 100000)
    | prop_H, prop_P, prop_Q => Some (10 * a + 100000 * b)
    | prop_T, prop_P, prop_Q => Some (a / 100)
    | prop_Q, prop_P, prop_H => Some ((b - 10 * a) / 100000)
    | prop_T, prop_H, prop_P => Some ((a - 100000) / 1000 + 20)
    | prop_S, prop_P, prop_Q => Some (a / 100 + 1000 * b)
    | prop_S, prop_P, prop_H => Some (a / 100 + (b - 10 * a) / 100)
    | _, _, _ => None
    end.

(** The same fluid with a critical temperature: no saturation state is
    known above [T_max]. *)
Definition oraculo_hasta (T_max : Q) : oraculo :=
  fun c =>
    match nombre1 c with
    | prop_T => if Qle_bool (valor1 c) T_max then oraculo_lineal c else None
    | _ => oraculo_lineal c
    end.

(** ** The oracle's answers along a run *)

(** The eleven distinct values a complete run reads from the oracle. *)
Record lecturas : Type := Lecturas {
  l_h1 : Q; l_s1 : Q; l_Pcond : Q; l_h2 : Q; l_h3 : Q; l_T3 : Q;
  l_P4 : Q; l_x4 : Q; l_T2 : Q; l_s3 : Q; l_s4 : Q
}.

(** The lookups made before the division, in source order. *)
Definition responde_ciclo (o : oraculo) (Ta Ti : Q) (l : lecturas) : Prop :=
  o (Consulta prop_H prop_T (degC_to_kelvin Ti) prop_Q 1) = Some (l_h1 l) /\
  o (Consulta prop_S prop_T (degC_to_kelvin Ti) prop_Q 1) = Some (l_s1 l) /\
  o (Consulta prop_P prop_T (T_condensacion (degC_to_kelvin Ta)) prop_Q 0)
    = Some (l_Pcond l) /\
  o (Consulta prop_H prop_P (l_Pcond l) prop_S (l_s1 l)) = Some (l_h2 l) /\
  o (Consulta prop_H prop_P (l_Pcond l) prop_Q 0) = Some (l_h3 l) /\
  o (Consulta prop_T prop_P (l_Pcond l) prop_Q 0) = Some (l_T3 l) /\
  o (Consulta prop_P prop_T (degC_to_kelvin Ti) prop_Q 1) = Some (l_P4 l) /\
  o (Consulta prop_Q prop_P (l_P4 l) prop_H (l_h3 l)) = Some (l_x4 l).

(** The lookups made while the result dictionary is built. *)
Definition responde_informe (o : oraculo) (l : lecturas) : Prop :=
  o (Consulta prop_T prop_H (l_h2 l) prop_P (l_Pcond l)) = Some (l_T2 l) /\
  o (Consulta prop_S prop_P (l_Pcond l) prop_Q 0) = Some (l_s3 l) /\
  o (Consulta prop_S prop_P (l_P4 l) prop_H (l_h3 l)) = Some (l_s4 l).

(** The dictionary a complete run returns, as a function of what it read. *)
Definition informe (Ti m : Q) (l : lecturas) : resultados :=
  {| scalar :=
       {| Trabajo_Compresor_kW := W_to_kW (Trabajo_necesario m (l_h1 l) (l_h2 l));
          Calor_Extraido_kW := W_to_kW (Q_evap m (l_h1 l) (l_h3 l));
          COP := Q_evap m (l_h1 l) (l_h3 l) / Trabajo_necesario m (l_h1 l) (l_h2 l);
          Calidad_Evap := l_x4 l;
          Temp_Descarga_C := kelvin_to_degC (l_T2 l);
          Flujo_Masico_kg_s := m |};
     states :=
       {| estado1 := Estado (l_P4 l) (degC_to_kelvin Ti) (l_h1 l) (l_s1 l)
                            "Entrada Compresor";
          estado2 := Estado (l_Pcond l) (l_T2 l) (l_h2 l) (l_s1 l)
                            "Entrada Condensador";
          estado3 := Estado (l_Pcond l) (l_T3 l) (l_h3 l) (l_s3 l)
                            "Salida Condensador";
          estado4 := Estado (l_P4 l) (degC_to_kelvin Ti) (l_h3 l) (l_s4 l)
                            "Entrada Evaporador" |} |}.

(** A query for temperature keyed by pressure and enthalpy, the shape a
    lookup of state 4's temperature would have. *)
Definition es_T_de_P_H (c : consulta) : bool :=
  propiedad_eqb (salida c) prop_T &&
  propiedad_eqb (nombre1 c) prop_P &&
  propiedad_eqb (nombre2 c) prop_H.

(** ** Running a function over a list of inputs *)

(** A list comprehension whose body may query the oracle: the elements are
    evaluated in order and the first exception ends the loop. *)
Fixpoint para_cada {A B : Type} (f : A -> M B) (l : list A) : M (list B) :=
  match l with
  | [] => ret []
  | a :: l' => b <- f a ;; bs <- para_cada f l' ;; ret (b :: bs)
  end.

(** ** The console program ([prueba.py]) *)

(** What the program shows on the terminal. *)
Inductive evento : Type :=
| Pregunta (texto : string)   (* the prompt of one [input] call *)
| Escribe (linea : string).   (* one [print] call *)

(** How the program ends: normally, or with an exception no handler of
    the program catches. *)
Inductive final : Type :=
| Termina
| Traza_ZeroDivisionError
| Traza_EOFError.

Record ejecucion : Type := Ejecucion {
  pantalla    : list evento;     (* what was shown, in order *)
  consultadas : list consulta;   (* the oracle queries sent *)
  fin         : final
}.

(** The outcome of one [float(input(...))]. *)
Inductive lectura : Type :=
| Leido (x : Q) (resto : list string)
| NoEsNumero    (* [float] raised [ValueError] *)
| SinEntrada.   (* [input] raised [EOFError] *)

Definition nl : string := String (Ascii.ascii_of_nat 10) EmptyString.

Definition mensaje_error : string :=
  "Error: Por favor ingrese solo números (use punto para decimales).".

Section Consola.

(** Python's own conversions, not part of the program: [float(s)], with
    [None] for its [ValueError]; [format(x, ".nf")]; and the text an
    f-string gives a number without a format. *)
Variable float_de : string -> option Q.
Variable formato : nat -> Q -> string.
Variable texto_de : Q -> string.

Definition imprimir_resultados (res : resultados) (t_amb_c : Q)
  : list evento :=
  let e := scalar res in
  [ Escribe ("--- RESULTADOS (Ambiente: " ++ texto_de t_amb_c ++ " C) ---");
    Escribe ("- Trabajo Compresor: " ++ formato 2 (Trabajo_Compresor_kW e)
             ++ " kW");
    Escribe ("- Calor Extraido:    " ++ formato 2 (Calor_Extraido_kW e)
             ++ " kW");
    Escribe ("- COP del ciclo:     " ++ formato 2 (COP e));
    Escribe ("- Calidad en Evap:   " ++ formato 2 (Calidad_Evap e) ++ " ("
             ++ formato 1 (Calidad_Evap e * 100) ++ "% es gas flash)");
    Escribe ("- Temp. Descarga:    " ++ formato 1 (Temp_Descarga_C e)
             ++ " C") ]%string.

Definition leer_float (entradas : list string) : lectura :=
  match entradas with
  | [] => SinEntrada
  | linea :: resto =>
      match float_de linea with
      | Some x => Leido x resto
      | None => NoEsNumero
      end
  end.

(** The interactive block: three numbers are asked for, the solver is
    called, the results are printed; the one handler is
    [except ValueError]. *)
Definition principal (o : oraculo) (entradas : list string) : ejecucion :=
  let p0 := [Escribe (nl ++ "--- CONFIGURACION DE LA SIMULACION ---")%string] in
  let p1 := p0 ++ [Pregunta "1. Ingrese Temperatura Ambiente (C): "] in
  match leer_float entradas with
  | SinEntrada => Ejecucion p1 [] Traza_EOFError
  | NoEsNumero => Ejecucion (p1 ++ [Escribe mensaje_error]) [] Termina
  | Leido t_amb_input resto1 =>
  let p2 := p1 ++ [Pregunta "2. Ingrese Temperatura Interior Objetivo (C): "] in
  match leer_float resto1 with
  | SinEntrada => Ejecucion p2 [] Traza_EOFError
  | NoEsNumero => Ejecucion (p2 ++ [Escribe mensaje_error]) [] Termina
  | Leido t_int_input resto2 =>
  let p3 := p2 ++ [Pregunta "3. Ingrese Flujo Masico (kg/s): "] in
  match leer_float resto2 with
  | SinEntrada => Ejecucion p3 [] Traza_EOFError
  | NoEsNumero => Ejecucion (p3 ++ [Escribe mensaje_error]) [] Termina
  | Leido flujo_input _ =>
  let p4 := p3 ++ [Escribe (nl ++ "Calculando...")%string] in
  match simular_refrigerador t_amb_input t_int_input flujo_input o with
  | (qs, Ok res) =>
      Ejecucion (p4 ++ imprimir_resultados res t_amb_input) qs Termina
  | (qs, Raise (ValueError _)) =>
      Ejecucion (p4 ++ [Escribe mensaje_error]) qs Termina
  | (qs, Raise ZeroDivisionError) =>
      Ejecucion p4 qs Traza_ZeroDivisionError
  end end end end.

End Consola.

(** Stand-ins for Python's conversions, used only to run the program on
    concrete inputs: a [float] that knows a few numerals and printers that
    show no digits. *)
Definition float_de_ejemplo (linea : string) : option Q :=
  if String.eqb linea "25" then Some 25
  else if String.eqb linea "40" then Some 40
  else if String.eqb linea "4" then Some 4
  else if String.eqb linea "0.1" then Some (1 # 10)
  else if String.eqb linea "0" then Some 0
  else None.

Definition formato_ejemplo (decimales : nat) (x : Q) : string := "#".

Definition texto_ejemplo (x : Q) : string := "#".

(** ** The dashboard ([app.py]) *)

(** The bounds of the three input widgets. *)
Definition en_rango (minimo maximo x : Q) : bool :=
  Qle_bool minimo x && Qle_bool x maximo.

Definition entradas_del_tablero (t_ambiente t_interior flujo_masico : Q)
  : bool :=
  en_rango (-10) 50 t_ambiente &&
  en_rango (-30) 10 t_interior &&
  en_rango (1 # 1000) (500 # 1000) flujo_masico.

(** [states[p]]; a key other than 1..4 is a [KeyError]. *)
Definition estado_de (e : estados) (p : nat) : option estado :=
  match p with
  | 1%nat => Some (estado1 e)
  | 2%nat => Some (estado2 e)
  | 3%nat => Some (estado3 e)
  | 4%nat => Some (estado4 e)
  | _ => None
  end.

(** A list comprehension over dictionary lookups. *)
Fixpoint por_clave {B : Type} (f : nat -> option B) (l : list nat)
  : option (list B) :=
  match l with
  | [] => Some []
  | p :: l' =>
      match f p with
      | Some b => option_map (cons b) (por_clave f l')
      | None => None
      end
  end.

Definition cycle_points : list nat := [1; 2; 3; 4; 1]%nat.

(** [h_cycle] and [p_cycle], the polyline of the cycle in the P-h chart,
    in kJ/kg and bar. *)
Definition h_cycle (e : estados) : option (list Q) :=
  por_clave (fun p => option_map (fun st => h st / 1000) (estado_de e p))
            cycle_points.

Definition p_cycle (e : estados) : option (list Q) :=
  por_clave (fun p => option_map (fun st => P st / 100000) (estado_de e p))
            cycle_points.

Section Esquema.

Variable formato : nat -> Q -> string.

(** [get_text(s)], the label of a corner of the schematic. *)
Definition get_text (st : estado) : string :=
  ("<b>" ++ formato 1 (P st / 100000) ++ " bar</b><br>"
   ++ formato 1 (T st - (27315 # 100)) ++ " °C")%string.

End Esquema.

(** [np.linspace(start, stop, num)]: [num] evenly spaced samples, the last
    one set to [stop] itself. *)
Definition linspace (start stop : Q) (num : nat) : list Q :=
  match num with
  | O => []
  | S O => [start]
  | S div =>
      let step := (stop - start) / inject_Z (Z.of_nat div) in
      map (fun i => inject_Z (Z.of_nat i) * step + start) (seq 0 div)
      ++ [stop]
  end.

(** The sampled temperatures of the saturation dome, from -60 C to just
    under the critical temperature. *)
Definition T_range (T_crit : Q) : list Q :=
  linspace (-60 + (27315 # 100)) (T_crit - (1 # 10)) 100.

(** [calcular_campana_saturacion], given the critical temperature the
    property library reports for the refrigerant. *)
Definition calcular_campana_saturacion (T_crit : Q)
  : M (list Q * list Q * list Q * list Q) :=
  let ts := T_range T_crit in
  h_liq <- para_cada
             (fun t => v <- PropsSI prop_H prop_T t prop_Q 0 ;; ret (v / 1000))
             ts ;;
  p_liq <- para_cada
             (fun t => v <- PropsSI prop_P prop_T t prop_Q 0 ;;
                       ret (v / 100000))
             ts ;;
  h_vap <- para_cada
             (fun t => v <- PropsSI prop_H prop_T t prop_Q 1 ;; ret (v / 1000))
             ts ;;
  p_vap <- para_cada
             (fun t => v <- PropsSI prop_P prop_T t prop_Q 1 ;;
                       ret (v / 100000))
             ts ;;
  ret (h_liq, p_liq, h_vap, p_vap).

(** The critical temperature of R134a, 374.21 K, for sample runs. *)
Definition T_crit_ejemplo : Q := 37421 # 100.

(** ** The solver on machine numbers

    The same program with Python's own numbers: IEEE binary64 values and
    operations, which round, overflow to infinity and underflow to zero.
    The names are those of the embedding above; here
    - a lookup fails as well when the library's value is not finite (the
      wrapper of [PropsSI] raises [ValueError] then);
    - [a / b] raises exactly when [b == 0.0] and otherwise returns whatever
      the division gives, infinities and NaN included;
    - [pint] converts a magnitude by multiplying it by the conversion
      factor (0.001 from J/s to kW) and converts degrees Celsius to kelvin
      by adding 273.15. *)
Module Flotante.

#[local] Set Warnings "-inexact-float".
Local Open Scope float_scope.

Record consulta : Type := Consulta {
  salida  : propiedad;
  nombre1 : propiedad;
  valor1  : float;
  nombre2 : propiedad;
  valor2  : float
}.

Definition oraculo : Type := consulta -> option float.

Inductive excepcion : Type :=
| ValueError (c : consulta)
| ZeroDivisionError.

Inductive resultado (A : Type) : Type :=
| Ok (a : A)
| Raise (e : excepcion).
Arguments Ok {A} a.
Arguments Raise {A} e.

Definition M (A : Type) : Type := oraculo -> list consulta * resultado A.

Definition ret {A} (a : A) : M A := fun _ => ([], Ok a).

Definition bind {A B} (m : M A) (f : A -> M B) : M B :=
  fun o =>
    match m o with
    | (l1, Ok a) => let (l2, r) := f a o in (l1 ++ l2, r)
    | (l1, Raise e) => (l1, Raise e)
    end.

Notation "x <~ m ;; k" := (bind m (fun x => k))
  (at level 61, m at next level, right associativity).

Definition PropsSI (out n1 : propiedad) (v1 : float) (n2 : propiedad)
    (v2 : float) : M float :=
  fun o =>
    let c := Consulta out n1 v1 n2 v2 in
    ([c], match o c with
          | Some v => if is_finite v then Ok v else Raise (ValueError c)
          | None => Raise (ValueError c)
          end).

(** Python's [a / b] on floats. *)
Definition truediv (a b : float) : M float :=
  fun _ => ([], if b =? 0 then Raise ZeroDivisionError else Ok (a / b)).

Definition degC_to_kelvin (x : float) : float := x + 273.15.

Definition kelvin_mas_delta (x d : float) : float := x + d.

Definition W_to_kW (x : float) : float := x * 0.001.

Definition kelvin_to_degC (x : float) : float := x - 273.15.

Record escalares : Type := Escalares {
  Trabajo_Compresor_kW : float;
  Calor_Extraido_kW    : float;
  COP                  : float;
  Calidad_Evap         : float;
  Temp_Descarga_C      : float;
  Flujo_Masico_kg_s    : float
}.

Record estado : Type := Estado {
  P    : float;
  T    : float;
  h    : float;
  s    : float;
  desc : string
}.

Record estados : Type := Estados {
  estado1 : estado;
  estado2 : estado;
  estado3 : estado;
  estado4 : estado
}.

Record resultados : Type := Resultados {
  scalar : escalares;
  states : estados
}.

Definition asignar_T_estado2 (r : resultados) (t : float) : resultados :=
  let e := states r in
  let e2 := estado2 e in
  {| scalar := scalar r;
     states := {| estado1 := estado1 e;
                  estado2 := {| P := P e2; T := t; h := h e2; s := s e2;
                                desc := desc e2 |};
                  estado3 := estado3 e;
                  estado4 := estado4 e |} |}.

Definition Delta_T_cond : float := 15.

Definition T_condensacion (T_ambiente : float) : float :=
  kelvin_mas_delta T_ambiente Delta_T_cond.

Definition Trabajo_necesario (Flujo_masico h1 h2 : float) : float :=
  Flujo_masico * (h2 - h1).

Definition Q_evap (Flujo_masico h1 h4 : float) : float :=
  Flujo_masico * (h1 - h4).

Definition simular_refrigerador
    (T_ambiente_C T_interior_C Flujo_masico_kg_s : float) : M resultados :=
  let T_ambiente := degC_to_kelvin T_ambiente_C in
  let T_interior := degC_to_kelvin T_interior_C in
  let Flujo_masico := Flujo_masico_kg_s in
  h1 <~ PropsSI prop_H prop_T T_interior prop_Q 1 ;;
  s1 <~ PropsSI prop_S prop_T T_interior prop_Q 1 ;;
  let T_cond := T_condensacion T_ambiente in
  P_condensacion <~ PropsSI prop_P prop_T T_cond prop_Q 0 ;;
  let s2 := s1 in
  let P2 := P_condensacion in
  h2 <~ PropsSI prop_H prop_P P2 prop_S s2 ;;
  let trabajo := Trabajo_necesario Flujo_masico h1 h2 in
  let P3 := P2 in
  h3 <~ PropsSI prop_H prop_P P3 prop_Q 0 ;;
  T3 <~ PropsSI prop_T prop_P P3 prop_Q 0 ;;
  let h4 := h3 in
  P4 <~ PropsSI prop_P prop_T T_interior prop_Q 1 ;;
  x4 <~ PropsSI prop_Q prop_P P4 prop_H h4 ;;
  let q_evap := Q_evap Flujo_masico h1 h4 in
  cop <~ truediv q_evap trabajo ;;
  t_descarga <~ PropsSI prop_T prop_H h2 prop_P P2 ;;
  s3 <~ PropsSI prop_S prop_P P3 prop_Q 0 ;;
  s4 <~ PropsSI prop_S prop_P P4 prop_H h4 ;;
  let res :=
    {| scalar :=
         {| Trabajo_Compresor_kW := W_to_kW trabajo;
            Calor_Extraido_kW := W_to_kW q_evap;
            COP := cop;
            Calidad_Evap := x4;
            Temp_Descarga_C := kelvin_to_degC t_descarga;
            Flujo_Masico_kg_s := Flujo_masico |};
       states :=
         {| estado1 := Estado P4 T_interior h1 s1 "Entrada Compresor";
            estado2 := Estado P2 (kelvin_mas_delta T_ambiente Delta_T_cond)
                              h2 s2 "Entrada Condensador";
            estado3 := Estado P3 T3 h3 s3 "Salida Condensador";
            estado4 := Estado P4 T_interior h4 s4 "Entrada Evaporador" |} |} in
  T2_real <~ PropsSI prop_T prop_H h2 prop_P P2 ;;
  ret (asignar_T_estado2 res T2_real).

Definition solve (o : oraculo) (Ta Ti m : float) : resultado resultados :=
  snd (simular_refrigerador Ta Ti m o).

(** The linear stand-in fluid of [oraculo_lineal], on machine numbers. *)
Definition oraculo_lineal : oraculo :=
  fun c =>
    let a := valor1 c in
    let b := valor2 c in
    match salida c, nombre1 c, nombre2 c with
    | prop_H, prop_T, prop_Q => Some (1000 * a + 100000 * b)
    | prop_S, prop_T, prop_Q => Some (a + 1000 * b)
    | prop_P, prop_T, prop_Q => Some (100 * a)
    | prop_H, prop_P, prop_S => Some (10 * a + 100000)
    | prop_H, prop_P, prop_Q => Some (10 * a + 100000 * b)
    | prop_T, prop_P, prop_Q => Some (a / 100)
    | prop_Q, prop_P, prop_H => Some ((b - 10 * a) / 100000)
    | prop_T, prop_H, prop_P => Some ((a - 100000) / 1000 + 20)
    | prop_S, prop_P, prop_Q => Some (a / 100 + 1000 * b)
    | prop_S, prop_P, prop_H => Some (a / 100 + (b - 10 * a) / 100)
    | _, _, _ => None
    end.

End Flotante.

(** ** Properties of a computation's query log *)

Definition respondida (o : oraculo) (c : consulta) : Prop := o c <> None.

(** The log tells the truth about the oracle: every query was answered,
    except the last one when the run ends in its [ValueError]. *)
Definition registro_fiel {A : Type} (m : M A) : Prop :=
  forall o,
    match m o with
    | (l, Raise (ValueError c)) =>
        o c = None /\ exists l', l = l' ++ [c] /\ Forall (respondida o) l'
    | (l, _) => Forall (respondida o) l
    end.

(** ** Running the solver step by step *)

Ltac desplegar :=
  unfold solve, consultas, simular_refrigerador, bind, PropsSI, truediv, ret.

(** Follow the successful branch of every lookup and of the division that
    hypothesis [H] still mentions. *)
Ltac leer H :=
  repeat match type of H with
         | context [match ?o ?c with Some _ => _ | None => _ end] =>
             let v := fresh "v" in
             let E := fresh "E" in
             destruct (o c) as [v|] eqn:E; cbn [fst snd] in H;
             [ | discriminate H ]
         | context [if Qeq_bool ?a ?b then _ else _] =>
             let E := fresh "Ediv" in
             destruct (Qeq_bool a b) eqn:E; cbn [fst snd] in H;
             [ discriminate H | ]
         end.

(** Split the goal on every lookup and on the division it mentions. *)
Ltac ramificar :=
  repeat match goal with
         | |- context [match ?f ?c with Some _ => _ | None => _ end] =>
             destruct (f c)
         | |- context [if Qeq_bool ?a ?b then _ else _] =>
             destruct (Qeq_bool a b)
         end.

(** Answer, one lookup after the other, for a concrete oracle. *)
Ltac responder :=
  unfold responde_ciclo, responde_informe;
  cbn [l_h1 l_s1 l_Pcond l_h2 l_h3 l_T3 l_P4 l_x4 l_T2 l_s3 l_s4];
  repeat (split; [cbv; reflexivity|]); cbv; reflexivity.

Section Corrida.

Variable o : oraculo.
Variables Ta Ti : Q.

Lemma solve_Ok_inv (m : Q) (r : resultados) :
  solve o Ta Ti m = Ok r ->
  exists l, responde_ciclo o Ta Ti l /\ responde_informe o l /\
            ~ Trabajo_necesario m (l_h1 l) (l_h2 l) == 0 /\
            r = informe Ti m l.
Proof.
  intros Hs. unfold responde_ciclo, responde_informe.
  revert Hs. desplegar. intros Hs. cbn [fst snd] in Hs.
  leer Hs. injection Hs as <-.
  exists (Lecturas v v0 v1 v2 v3 v4 v5 v6 v7 v8 v9).
  cbn [l_h1 l_s1 l_Pcond l_h2 l_h3 l_T3 l_P4 l_x4 l_T2 l_s3 l_s4].
  repeat split; try assumption.
  intros Hz. apply Qeq_bool_iff in Hz. congruence.
Qed.


Lemma solve_division_por_cero (m : Q) (l : lecturas) :
  responde_ciclo o Ta Ti l ->
  Trabajo_necesario m (l_h1 l) (l_h2 l) == 0 ->
  solve o Ta Ti m = Raise ZeroDivisionError.
Proof.
  intros (E1 & E2 & E3 & E4 & E5 & E6 & E7 & E8) Hw.
  desplegar.
  rewrite E1, E2, E3, E4, E5, E6, E7, E8.
  apply Qeq_bool_iff in Hw. rewrite Hw. reflexivity.
Qed.

(** No run, complete or not, asks for a temperature at a given pressure
    and enthalpy. *)
Lemma consultas_sin_T_de_P_H (m : Q) :
  forallb (fun c => negb (es_T_de_P_H c)) (consultas o Ta Ti m) = true.
Proof.
  desplegar. ramificar; reflexivity.
Qed.

End Corrida.

(** ** Sample runs *)

Example corrida_nominal :
  exists r, solve oraculo_lineal 25 4 (1 # 10) = Ok r /\
            COP (scalar r) == 16 # 9 /\
            Trabajo_Compresor_kW (scalar r) == 36 # 10 /\
            Calor_Extraido_kW (scalar r) == 64 # 10 /\
            Temp_Descarga_C (scalar r) == 60.
Proof. eexists. split; [reflexivity | repeat split]. Qed.

Example corrida_sin_salto :
  solve oraculo_lineal 25 40 (1 # 10) = Raise ZeroDivisionError.
Proof. reflexivity. Qed.

Example corrida_fuera_de_dominio :
  solve (fun c => if Qle_bool 300 (valor1 c) then None else oraculo_lineal c)
        25 4 (1 # 10)
  = Raise (ValueError (Consulta prop_P prop_T (31315 # 100) prop_Q 0)).
Proof. vm_compute. reflexivity. Qed.

(** ** The cycle invariants *)

(** C1. Whenever the solver returns, the four states it returns satisfy
    the cycle invariants: state 1 and state 4 have the same pressure,
    state 2 and state 3 have the same pressure, state 2 has the entropy of
    state 1, and state 4 has the enthalpy of state 3. *)
Theorem invariantes_del_ciclo (o : oraculo) (Ta Ti m : Q) (r : resultados) :
  solve o Ta Ti m = Ok r ->
  P (estado1 (states r)) = P (estado4 (states r)) /\
  P (estado2 (states r)) = P (estado3 (states r)) /\
  s (estado2 (states r)) = s (estado1 (states r)) /\
  h (estado4 (states r)) = h (estado3 (states r)).
Proof.
  intros Hs. apply solve_Ok_inv in Hs as (l & _ & _ & _ & ->).
  repeat split.
Qed.

Lemma invariantes_del_ciclo_witness :
  exists r, solve oraculo_lineal 25 4 (1 # 10) = Ok r /\
    P (estado1 (states r)) = P (estado4 (states r)) /\
    P (estado2 (states r)) = P (estado3 (states r)) /\
    s (estado2 (states r)) = s (estado1 (states r)) /\
    h (estado4 (states r)) = h (estado3 (states r)).
Proof.
  eexists. split.
  - reflexivity.
  - apply (invariantes_del_ciclo oraculo_lineal 25 4 (1 # 10)). reflexivity.
Defined.

(** ** The scalar metrics *)

(** C3. Whenever the solver returns, the reported compressor work rate is
    the mass flow rate times (enthalpy of state 2 minus enthalpy of
    state 1) and the reported heat-extraction rate is the mass flow rate
    times (enthalpy of state 1 minus enthalpy of state 4), both expressed
    in kW, the enthalpies being those of the returned states and the mass
    flow rate the one given, which is also the one echoed back. *)
Theorem trabajo_y_calor (o : oraculo) (Ta Ti m : Q) (r : resultados) :
  solve o Ta Ti m = Ok r ->
  Flujo_Masico_kg_s (scalar r) = m /\
  Trabajo_Compresor_kW (scalar r)
  = W_to_kW (m * (h (estado2 (states r)) - h (estado1 (states r)))) /\
  Calor_Extraido_kW (scalar r)
  = W_to_kW (m * (h (estado1 (states r)) - h (estado4 (states r)))).
Proof.
  intros Hs. apply solve_Ok_inv in Hs as (l & _ & _ & _ & ->).
  repeat split.
Qed.

Lemma trabajo_y_calor_witness :
  exists r, solve oraculo_lineal 25 4 (1 # 10) = Ok r /\
    Flujo_Masico_kg_s (scalar r) = 1 # 10 /\
    Trabajo_Compresor_kW (scalar r)
    = W_to_kW ((1 # 10) * (h (estado2 (states r)) - h (estado1 (states r)))) /\
    Calor_Extraido_kW (scalar r)
    = W_to_kW ((1 # 10) * (h (estado1 (states r)) - h (estado4 (states r)))).
Proof.
  eexists. split.
  - reflexivity.
  - apply (trabajo_y_calor oraculo_lineal 25 4 (1 # 10)). reflexivity.
Defined.

(** ** Temperatures and pressures of the states *)

(** C4. Whenever the solver returns, the temperature reported for state 2
    is the oracle's answer to the temperature query at (enthalpy of state 2,
    pressure of state 2), that pressure being the condensing pressure, and
    the discharge-temperature metric is that temperature in degrees Celsius,
    that is, minus 273.15.  The provisional value written first (the
    condensing temperature) is not what is reported. *)
Theorem temperatura_de_descarga
    (o : oraculo) (Ta Ti m : Q) (r : resultados) :
  solve o Ta Ti m = Ok r ->
  o (Consulta prop_P prop_T (Ta + (27315 # 100) + 15) prop_Q 0)
  = Some (P (estado2 (states r))) /\
  o (Consulta prop_T prop_H (h (estado2 (states r)))
              prop_P (P (estado2 (states r))))
  = Some (T (estado2 (states r))) /\
  Temp_Descarga_C (scalar r) = T (estado2 (states r)) - (27315 # 100).
Proof.
  intros Hs.
  apply solve_Ok_inv in Hs as (l & Hc & Hi & _ & ->).
  destruct Hc as (_ & _ & E3 & _). destruct Hi as (E9 & _).
  repeat split; assumption.
Qed.

(** The discharge leaves 20 K above the condenser, at 60 C, and that is
    the temperature reported, not the 40 C written first. *)
Lemma temperatura_de_descarga_witness :
  exists r, solve oraculo_lineal 25 4 (1 # 10) = Ok r /\
    (oraculo_lineal
       (Consulta prop_P prop_T (25 + (27315 # 100) + 15) prop_Q 0)
     = Some (P (estado2 (states r))) /\
     oraculo_lineal
       (Consulta prop_T prop_H (h (estado2 (states r)))
                 prop_P (P (estado2 (states r))))
     = Some (T (estado2 (states r))) /\
     Temp_Descarga_C (scalar r)
     = T (estado2 (states r)) - (27315 # 100)) /\
    Temp_Descarga_C (scalar r) == 60 /\
    T (estado2 (states r)) == 33315 # 100.
Proof.
  eexists. split; [reflexivity|]. split.
  - apply (temperatura_de_descarga oraculo_lineal 25 4 (1 # 10)).
    reflexivity.
  - split; reflexivity.
Defined.

(** C5. For every input, the condensing temperature the solver uses is the
    ambient temperature plus 273.15 (kelvin) plus the fixed approach of 15:
    in any run, complete or not, every query for a pressure at quality 0 is
    keyed by that temperature; once the two lookups of state 1 are answered
    it is the third query sent, and a run that gets no answer to it ends in
    that query's error; in a run that returns, the oracle's answer to it is
    the pressure of states 2 and 3. *)
Theorem presion_de_condensacion (o : oraculo) (Ta Ti m : Q) :
  let consulta_P_cond :=
    Consulta prop_P prop_T (Ta + (27315 # 100) + 15) prop_Q 0 in
  (forall c, In c (consultas o Ta Ti m) ->
             salida c = prop_P -> nombre2 c = prop_Q -> valor2 c = 0 ->
             c = consulta_P_cond) /\
  (o (Consulta prop_H prop_T (Ti + (27315 # 100)) prop_Q 1) <> None ->
   o (Consulta prop_S prop_T (Ti + (27315 # 100)) prop_Q 1) <> None ->
   nth_error (consultas o Ta Ti m) 2 = Some consulta_P_cond /\
   (o consulta_P_cond = None ->
    solve o Ta Ti m = Raise (ValueError consulta_P_cond))) /\
  (forall r, solve o Ta Ti m = Ok r ->
             nth_error (consultas o Ta Ti m) 2 = Some consulta_P_cond /\
             o consulta_P_cond = Some (P (estado2 (states r))) /\
             P (estado3 (states r)) = P (estado2 (states r))).
Proof.
  intros q. subst q. split; [|split].
  - intros c. desplegar. ramificar; cbn [fst app In];
      intros Hc Hs Hn Hv;
      repeat (destruct Hc as [<- | Hc];
              [ first [reflexivity | discriminate Hs | discriminate Hn
                      | discriminate Hv] | ]);
      destruct Hc.
  - intros H1 H2.
    destruct (o (Consulta prop_H prop_T (Ti + (27315 # 100)) prop_Q 1))
      as [h1 |] eqn:E1; [|contradiction].
    destruct (o (Consulta prop_S prop_T (Ti + (27315 # 100)) prop_Q 1))
      as [s1 |] eqn:E2; [|contradiction].
    split.
    + desplegar. unfold degC_to_kelvin. rewrite E1, E2.
      ramificar; reflexivity.
    + intros E3. desplegar.
      unfold degC_to_kelvin, T_condensacion, kelvin_mas_delta, Delta_T_cond.
      rewrite E1, E2, E3. reflexivity.
  - intros r Hs.
    apply solve_Ok_inv in Hs as (l & Hc & _ & _ & ->).
    destruct Hc as (E1 & E2 & E3 & _).
    split; [|split; [exact E3 | reflexivity]].
    desplegar. rewrite E1, E2, E3. ramificar; reflexivity.
Qed.

(** A run that returns, and a run cut short at the condensing lookup
    itself: the fluid has no saturation state at 40 C. *)
Example presion_de_condensacion_ejemplos :
  (exists r, solve oraculo_lineal 25 4 (1 # 10) = Ok r /\
             P (estado2 (states r)) == 31315 /\
             P (estado3 (states r)) == 31315) /\
  solve (oraculo_hasta 300) 25 4 (1 # 10)
  = Raise (ValueError
             (Consulta prop_P prop_T (25 + (27315 # 100) + 15) prop_Q 0)) /\
  nth_error (consultas (oraculo_hasta 300) 25 4 (1 # 10)) 2
  = Some (Consulta prop_P prop_T (25 + (27315 # 100) + 15) prop_Q 0).
Proof.
  split; [eexists; split; [reflexivity | split; reflexivity]|].
  split; reflexivity.
Qed.

(** C9. Whenever the solver returns, the temperature reported for state 4
    is the one reported for state 1, and both are the interior temperature
    in kelvin, that is, plus 273.15; no query of the run asks the oracle for
    a temperature at a given pressure and enthalpy, so state 4's temperature
    is not looked up at (evaporating pressure, enthalpy of state 4). *)
Theorem temperatura_del_evaporador
    (o : oraculo) (Ta Ti m : Q) (r : resultados) :
  solve o Ta Ti m = Ok r ->
  T (estado4 (states r)) = T (estado1 (states r)) /\
  T (estado1 (states r)) = Ti + (27315 # 100) /\
  ~ In (Consulta prop_T prop_P (P (estado4 (states r)))
                 prop_H (h (estado4 (states r))))
       (consultas o Ta Ti m) /\
  forall c, In c (consultas o Ta Ti m) -> es_T_de_P_H c = false.
Proof.
  intros Hs.
  assert (Hlog : forall c, In c (consultas o Ta Ti m) ->
                           es_T_de_P_H c = false).
  { intros c Hc.
    pose proof (consultas_sin_T_de_P_H o Ta Ti m) as Hall.
    rewrite forallb_forall in Hall. apply Hall in Hc.
    destruct (es_T_de_P_H c); [discriminate Hc | reflexivity]. }
  apply solve_Ok_inv in Hs as (l & _ & _ & _ & ->).
  repeat split; try assumption.
  intros Hin. apply Hlog in Hin. discriminate Hin.
Qed.

Lemma temperatura_del_evaporador_witness :
  exists r, solve oraculo_lineal 25 4 (1 # 10) = Ok r /\
    (T (estado4 (states r)) = T (estado1 (states r)) /\
     T (estado1 (states r)) = 4 + (27315 # 100) /\
     ~ In (Consulta prop_T prop_P (P (estado4 (states r)))
                    prop_H (h (estado4 (states r))))
          (consultas oraculo_lineal 25 4 (1 # 10)) /\
     forall c, In c (consultas oraculo_lineal 25 4 (1 # 10)) ->
               es_T_de_P_H c = false) /\
    T (estado4 (states r)) == 27715 # 100.
Proof.
  eexists. split; [reflexivity|]. split.
  - apply (temperatura_del_evaporador oraculo_lineal 25 4 (1 # 10)).
    reflexivity.
  - reflexivity.
Defined.

(** ** Degenerate cycles *)

(** C7. With a zero mass flow rate and lookups that succeed, the computed
    compressor work rate and heat-extraction rate are both zero, and the
    call ends in the division error of the coefficient of performance
    (0 / 0): no result is returned, in particular none with a coefficient
    equal to zero. *)
Theorem flujo_masico_nulo (o : oraculo) (Ta Ti m : Q) (l : lecturas) :
  m == 0 ->
  responde_ciclo o Ta Ti l ->
  Trabajo_necesario m (l_h1 l) (l_h2 l) == 0 /\
  Q_evap m (l_h1 l) (l_h3 l) == 0 /\
  solve o Ta Ti m = Raise ZeroDivisionError /\
  forall r, solve o Ta Ti m <> Ok r.
Proof.
  intros Hm Hc.
  assert (Hw : Trabajo_necesario m (l_h1 l) (l_h2 l) == 0).
  { unfold Trabajo_necesario. rewrite Hm. ring. }
  assert (Hs : solve o Ta Ti m = Raise ZeroDivisionError).
  { apply (solve_division_por_cero o Ta Ti m l Hc Hw). }
  split; [exact Hw|]. split.
  - unfold Q_evap. rewrite Hm. ring.
  - split; [exact Hs|]. intros r Hr. rewrite Hs in Hr. discriminate Hr.
Qed.

Lemma flujo_masico_nulo_witness :
  exists l,
    responde_ciclo oraculo_lineal 25 4 l /\
    Trabajo_necesario 0 (l_h1 l) (l_h2 l) == 0 /\
    Q_evap 0 (l_h1 l) (l_h3 l) == 0 /\
    solve oraculo_lineal 25 4 0 = Raise ZeroDivisionError /\
    forall r, solve oraculo_lineal 25 4 0 <> Ok r.
Proof.
  eexists (Lecturas _ _ _ _ _ _ _ _ 0 0 0).
  match goal with
  | |- ?C /\ _ => assert (Hc : C) by responder
  end.
  split; [exact Hc|].
  apply (flujo_masico_nulo oraculo_lineal 25 4 0 _ (Qeq_refl 0) Hc).
Defined.



(** ** The query log of any computation *)

Lemma registro_fiel_ret {A : Type} (a : A) : registro_fiel (ret a).
Proof. intros o. constructor. Qed.

Lemma registro_fiel_PropsSI (out n1 : propiedad) (v1 : Q)
    (n2 : propiedad) (v2 : Q) :
  registro_fiel (PropsSI out n1 v1 n2 v2).
Proof.
  intros o. unfold PropsSI.
  destruct (o (Consulta out n1 v1 n2 v2)) eqn:E.
  - repeat constructor. unfold respondida. congruence.
  - split; [exact E|]. exists []. split; [reflexivity | constructor].
Qed.

Lemma registro_fiel_truediv (a b : Q) : registro_fiel (truediv a b).
Proof. intros o. unfold truediv. destruct (Qeq_bool b 0); constructor. Qed.

Lemma registro_fiel_bind {A B : Type} (m : M A) (f : A -> M B) :
  registro_fiel m -> (forall a, registro_fiel (f a)) ->
  registro_fiel (bind m f).
Proof.
  intros Hm Hf o. unfold bind.
  specialize (Hm o). destruct (m o) as [l1 [a | e]].
  - specialize (Hf a o). destruct (f a o) as [l2 [b | [c |]]].
    + apply Forall_app. split; assumption.
    + destruct Hf as (Hc & l' & -> & Hl').
      split; [exact Hc|]. exists (l1 ++ l'). split.
      * apply app_assoc.
      * apply Forall_app. split; assumption.
    + apply Forall_app. split; assumption.
  - destruct e as [c |]; exact Hm.
Qed.

Lemma registro_fiel_para_cada {A B : Type} (f : A -> M B) (l : list A) :
  (forall a, registro_fiel (f a)) -> registro_fiel (para_cada f l).
Proof.
  intros Hf. induction l as [| a l IH]; cbn [para_cada].
  - apply registro_fiel_ret.
  - apply registro_fiel_bind; [apply Hf | intros b].
    apply registro_fiel_bind; [exact IH | intros bs].
    apply registro_fiel_ret.
Qed.

Create HintDb registro.
#[export] Hint Resolve registro_fiel_ret registro_fiel_PropsSI
  registro_fiel_truediv : registro.

Ltac fiel :=
  repeat (apply registro_fiel_bind; [auto with registro | intros ?]);
  auto with registro.

Lemma registro_fiel_simular (Ta Ti m : Q) :
  registro_fiel (simular_refrigerador Ta Ti m).
Proof. unfold simular_refrigerador. fiel. Qed.

(** ** How a run of the solver ends *)

(** Follow hypothesis [H] through the lookups and the division, keeping
    the branches it does not rule out. *)
Ltac seguir H :=
  repeat match type of H with
         | context [if Qeq_bool ?a ?b then _ else _] =>
             let E := fresh "Ediv" in
             destruct (Qeq_bool a b) eqn:E; cbn [fst snd] in H;
             try discriminate H
         | context [match ?o ?c with Some _ => _ | None => _ end] =>
             let v := fresh "v" in
             let E := fresh "E" in
             destruct (o c) as [v|] eqn:E; cbn [fst snd] in H;
             try discriminate H
         end.

Lemma solve_ZeroDivisionError_inv (o : oraculo) (Ta Ti m : Q) :
  solve o Ta Ti m = Raise ZeroDivisionError ->
  exists l, responde_ciclo o Ta Ti l /\
            Trabajo_necesario m (l_h1 l) (l_h2 l) == 0 /\
            List.length (consultas o Ta Ti m) = 8%nat.
Proof.
  intros Hs. unfold responde_ciclo.
  revert Hs. desplegar. intros Hs. cbn [fst snd] in Hs.
  seguir Hs.
  exists (Lecturas v v0 v1 v2 v3 v4 v5 v6 0 0 0).
  cbn [l_h1 l_s1 l_Pcond l_h2 l_h3 l_T3 l_P4 l_x4].
  repeat split; try assumption.
  apply Qeq_bool_iff. exact Ediv.
Qed.

(** X1. A lookup the oracle cannot answer ends the call with that lookup's
    error: the failed query is the last one sent, nothing is asked after
    it, and every query before it was answered. *)
Theorem error_de_consulta (o : oraculo) (Ta Ti m : Q) (c : consulta) :
  solve o Ta Ti m = Raise (ValueError c) ->
  o c = None /\
  exists l, consultas o Ta Ti m = l ++ [c] /\ Forall (respondida o) l.
Proof.
  unfold solve, consultas. intros Hs.
  pose proof (registro_fiel_simular Ta Ti m o) as Hf.
  destruct (simular_refrigerador Ta Ti m o) as [l r].
  cbn [fst snd] in *. subst r. exact Hf.
Qed.

Lemma error_de_consulta_witness :
  let o := oraculo_hasta 300 in
  let c := Consulta prop_P prop_T (T_condensacion (degC_to_kelvin 25))
                    prop_Q 0 in
  o c = None /\
  exists l, consultas o 25 4 (1 # 10) = l ++ [c] /\ Forall (respondida o) l.
Proof.
  intros o c.
  apply (error_de_consulta o 25 4 (1 # 10) c). vm_compute. reflexivity.
Defined.

(** X2. The division is tried before the lookups that only fill the
    report: a call that ends in the division error has sent exactly the
    eight lookups of the cycle, all answered, the computed work is zero,
    and the three reporting lookups were never sent. *)
Theorem division_antes_del_informe (o : oraculo) (Ta Ti m : Q) :
  solve o Ta Ti m = Raise ZeroDivisionError ->
  exists l,
    responde_ciclo o Ta Ti l /\
    Trabajo_necesario m (l_h1 l) (l_h2 l) == 0 /\
    List.length (consultas o Ta Ti m) = 8%nat /\
    Forall (respondida o) (consultas o Ta Ti m) /\
    Forall (fun c => propiedad_eqb (nombre1 c) prop_H = false /\
                     (salida c = prop_S -> nombre1 c = prop_T))
           (consultas o Ta Ti m).
Proof.
  intros Hs.
  destruct (solve_ZeroDivisionError_inv o Ta Ti m Hs) as (l & Hc & Hw & Hn).
  exists l. repeat (split; [assumption|]). split.
  - pose proof (registro_fiel_simular Ta Ti m o) as Hf.
    unfold solve, consultas in *.
    destruct (simular_refrigerador Ta Ti m o) as [qs r].
    cbn [fst snd] in *. subst r. exact Hf.
  - clear Hn. revert Hs. desplegar. intros Hs. cbn [fst snd] in Hs.
    seguir Hs. cbn [fst snd app].
    repeat constructor; cbn; intros; discriminate.
Qed.

Lemma division_antes_del_informe_witness :
  exists l,
    responde_ciclo oraculo_lineal 25 40 l /\
    Trabajo_necesario (1 # 10) (l_h1 l) (l_h2 l) == 0 /\
    List.length (consultas oraculo_lineal 25 40 (1 # 10)) = 8%nat /\
    Forall (respondida oraculo_lineal)
           (consultas oraculo_lineal 25 40 (1 # 10)) /\
    Forall (fun c => propiedad_eqb (nombre1 c) prop_H = false /\
                     (salida c = prop_S -> nombre1 c = prop_T))
           (consultas oraculo_lineal 25 40 (1 # 10)).
Proof.
  apply (division_antes_del_informe oraculo_lineal 25 40 (1 # 10)).
  reflexivity.
Defined.

(** ** What each input reaches *)

(** X4. The two sides of the cycle are computed apart.  A complete run
    with the same ambient temperature as another reports the same state 3
    and the same condensing pressure, whatever its interior temperature and
    mass flow; a complete run with the same interior temperature reports
    the same state 1 and the same pressure and temperature for state 4,
    whatever its ambient temperature and mass flow. *)
Theorem cada_lado_por_separado
    (o : oraculo) (Ta Ti m Ta' Ti' m' m'' : Q) (r r' r'' : resultados) :
  solve o Ta Ti m = Ok r ->
  solve o Ta Ti' m' = Ok r' ->
  solve o Ta' Ti m'' = Ok r'' ->
  (estado3 (states r') = estado3 (states r) /\
   P (estado2 (states r')) = P (estado2 (states r))) /\
  (estado1 (states r'') = estado1 (states r) /\
   P (estado4 (states r'')) = P (estado4 (states r)) /\
   T (estado4 (states r'')) = T (estado4 (states r))).
Proof.
  intros Hs Hs' Hs''.
  apply solve_Ok_inv in Hs as (l & Hc & Hi & _ & ->).
  apply solve_Ok_inv in Hs' as (l' & Hc' & Hi' & _ & ->).
  apply solve_Ok_inv in Hs'' as (l'' & Hc'' & _ & _ & ->).
  destruct Hc as (E1 & E2 & E3 & _ & E5 & E6 & E7 & _).
  destruct Hi as (_ & E10 & _).
  destruct Hc' as (_ & _ & E3' & _ & E5' & E6' & _).
  destruct Hi' as (_ & E10' & _).
  destruct Hc'' as (E1'' & E2'' & _ & _ & _ & _ & E7'' & _).
  cbn [informe states estado1 estado2 estado3 estado4 P T].
  split.
  - assert (Ep : l_Pcond l' = l_Pcond l) by congruence.
    rewrite Ep in *. split; [|reflexivity]. f_equal; congruence.
  - repeat split; congruence.
Qed.

Lemma cada_lado_por_separado_witness :
  exists r r' r'',
    solve oraculo_lineal 25 4 (1 # 10) = Ok r /\
    solve oraculo_lineal 25 (-10) (1 # 5) = Ok r' /\
    solve oraculo_lineal 35 4 (1 # 2) = Ok r'' /\
    (estado3 (states r') = estado3 (states r) /\
     P (estado2 (states r')) = P (estado2 (states r))) /\
    (estado1 (states r'') = estado1 (states r) /\
     P (estado4 (states r'')) = P (estado4 (states r)) /\
     T (estado4 (states r'')) = T (estado4 (states r))).
Proof.
  do 3 eexists. do 3 (split; [reflexivity|]).
  apply (cada_lado_por_separado oraculo_lineal 25 4 (1 # 10)
                                35 (-10) (1 # 5) (1 # 2)); reflexivity.
Defined.

(** X6. The values a complete run only reports are the oracle's answers as
    they come, with no clamping: the evaporator quality is the answer to
    the quality query at (pressure of state 4, enthalpy of state 4), the
    temperature and entropy of state 3 are the saturated-liquid answers at
    its pressure, and the entropy of state 4 is the answer at its pressure
    and enthalpy. *)
Theorem valores_del_informe (o : oraculo) (Ta Ti m : Q) (r : resultados) :
  solve o Ta Ti m = Ok r ->
  let e3 := estado3 (states r) in
  let e4 := estado4 (states r) in
  o (Consulta prop_Q prop_P (P e4) prop_H (h e4))
  = Some (Calidad_Evap (scalar r)) /\
  o (Consulta prop_T prop_P (P e3) prop_Q 0) = Some (T e3) /\
  o (Consulta prop_H prop_P (P e3) prop_Q 0) = Some (h e3) /\
  o (Consulta prop_S prop_P (P e3) prop_Q 0) = Some (s e3) /\
  o (Consulta prop_S prop_P (P e4) prop_H (h e4)) = Some (s e4).
Proof.
  intros Hs. apply solve_Ok_inv in Hs as (l & Hc & Hi & _ & ->).
  destruct Hc as (_ & _ & _ & _ & E5 & E6 & _ & E8).
  destruct Hi as (_ & E10 & E11).
  cbn. repeat split; assumption.
Qed.

(** A warm interior: the quality the oracle gives is negative and is
    reported as it is. *)
Lemma valores_del_informe_witness :
  exists r,
    solve oraculo_lineal 0 30 (1 # 10) = Ok r /\
    Calidad_Evap (scalar r) < 0 /\
    let e3 := estado3 (states r) in
    let e4 := estado4 (states r) in
    oraculo_lineal (Consulta prop_Q prop_P (P e4) prop_H (h e4))
    = Some (Calidad_Evap (scalar r)) /\
    oraculo_lineal (Consulta prop_T prop_P (P e3) prop_Q 0) = Some (T e3) /\
    oraculo_lineal (Consulta prop_H prop_P (P e3) prop_Q 0) = Some (h e3) /\
    oraculo_lineal (Consulta prop_S prop_P (P e3) prop_Q 0) = Some (s e3) /\
    oraculo_lineal (Consulta prop_S prop_P (P e4) prop_H (h e4))
    = Some (s e4).
Proof.
  eexists. split; [reflexivity|]. split; [reflexivity|].
  apply (valores_del_informe oraculo_lineal 0 30 (1 # 10)). reflexivity.
Defined.

(** ** The dashboard's views of a result *)

(** X7. On the schematic, the corner of state 4 carries the same text as
    the corner of state 1, and the temperature shown at state 2 is the
    discharge-temperature metric; the temperature behind the label of
    states 1 and 4 is the interior temperature that was entered. *)
Theorem etiquetas_del_esquema
    (formato : nat -> Q -> string) (o : oraculo) (Ta Ti m : Q)
    (r : resultados) :
  solve o Ta Ti m = Ok r ->
  get_text formato (estado4 (states r))
  = get_text formato (estado1 (states r)) /\
  get_text formato (estado2 (states r))
  = ("<b>" ++ formato 1%nat (P (estado2 (states r)) / 100000)
     ++ " bar</b><br>" ++ formato 1%nat (Temp_Descarga_C (scalar r))
     ++ " °C")%string /\
  T (estado1 (states r)) - (27315 # 100) == Ti.
Proof.
  intros Hs. apply solve_Ok_inv in Hs as (l & _ & _ & _ & ->).
  split; [reflexivity|]. split; [reflexivity|].
  cbn [informe states estado1 T]. unfold degC_to_kelvin. ring.
Qed.

Lemma etiquetas_del_esquema_witness :
  let formato := fun (_ : nat) (_ : Q) => "#"%string in
  exists r,
    solve oraculo_lineal 25 4 (1 # 10) = Ok r /\
    get_text formato (estado4 (states r))
    = get_text formato (estado1 (states r)) /\
    get_text formato (estado2 (states r))
    = ("<b>" ++ formato 1%nat (P (estado2 (states r)) / 100000)
       ++ " bar</b><br>" ++ formato 1%nat (Temp_Descarga_C (scalar r))
       ++ " °C")%string /\
    T (estado1 (states r)) - (27315 # 100) == 4.
Proof.
  intros formato. eexists. split; [reflexivity|].
  apply (etiquetas_del_esquema formato oraculo_lineal 25 4 (1 # 10)).
  reflexivity.
Defined.

(** X8. The polyline drawn on the P-h chart for a result of the solver
    has five points and is closed; its condenser side (points 2 to 3) and
    its evaporator side (points 4 to 1) are horizontal, and its expansion
    side (points 3 to 4) is vertical.  No dictionary lookup fails. *)
Theorem poligono_del_ciclo (o : oraculo) (Ta Ti m : Q) (r : resultados) :
  solve o Ta Ti m = Ok r ->
  exists p_baja p_alta h1 h2 h3,
    p_cycle (states r) = Some [p_baja; p_alta; p_alta; p_baja; p_baja] /\
    h_cycle (states r) = Some [h1; h2; h3; h3; h1] /\
    p_baja = P (estado1 (states r)) / 100000 /\
    p_alta = P (estado2 (states r)) / 100000 /\
    h1 = h (estado1 (states r)) / 1000 /\
    h2 = h (estado2 (states r)) / 1000 /\
    h3 = h (estado3 (states r)) / 1000.
Proof.
  intros Hs. apply solve_Ok_inv in Hs as (l & _ & _ & _ & ->).
  do 5 eexists. repeat split.
Qed.

Lemma poligono_del_ciclo_witness :
  exists r,
    solve oraculo_lineal 25 4 (1 # 10) = Ok r /\
    exists p_baja p_alta h1 h2 h3,
      p_cycle (states r) = Some [p_baja; p_alta; p_alta; p_baja; p_baja] /\
      h_cycle (states r) = Some [h1; h2; h3; h3; h1] /\
      p_baja = P (estado1 (states r)) / 100000 /\
      p_alta = P (estado2 (states r)) / 100000 /\
      h1 = h (estado1 (states r)) / 1000 /\
      h2 = h (estado2 (states r)) / 1000 /\
      h3 = h (estado3 (states r)) / 1000.
Proof.
  eexists. split; [reflexivity|].
  apply (poligono_del_ciclo oraculo_lineal 25 4 (1 # 10)). reflexivity.
Defined.

(** ** The dashboard's input ranges *)

Lemma en_rango_iff (a b x : Q) : en_rango a b x = true <-> a <= x <= b.
Proof.
  unfold en_rango. rewrite andb_true_iff, !Qle_bool_iff. reflexivity.
Qed.

Lemma salto_termico_del_tablero_aux (Ta Ti m : Q) :
  entradas_del_tablero Ta Ti m = true -> 0 < m.
Proof.
  unfold entradas_del_tablero. rewrite !andb_true_iff, !en_rango_iff.
  intros (_ & Hm). lra.
Qed.

(** X9. The input widgets do not keep the interior below the condenser:
    within their ranges the mass flow is positive and the condensing
    temperature is anywhere from 5 K below to 95 K above the interior
    temperature. *)
Theorem salto_termico_del_tablero (Ta Ti m : Q) :
  entradas_del_tablero Ta Ti m = true ->
  0 < m /\
  -5 <= T_condensacion (degC_to_kelvin Ta) - degC_to_kelvin Ti <= 95.
Proof.
  unfold entradas_del_tablero. rewrite !andb_true_iff, !en_rango_iff.
  unfold T_condensacion, kelvin_mas_delta, Delta_T_cond, degC_to_kelvin.
  intros ((Ha & Hi) & Hm). lra.
Qed.

(** Both ends of the interval are reached. *)
Lemma salto_termico_del_tablero_witness :
  (0 < 1 # 1000 /\
   -5 <= T_condensacion (degC_to_kelvin (-10)) - degC_to_kelvin 10 <= 95) /\
  T_condensacion (degC_to_kelvin (-10)) - degC_to_kelvin 10 == -5 /\
  entradas_del_tablero 50 (-30) (1 # 2) = true /\
  T_condensacion (degC_to_kelvin 50) - degC_to_kelvin (-30) == 95.
Proof.
  split.
  - apply (salto_termico_del_tablero (-10) 10 (1 # 1000)). reflexivity.
  - repeat split.
Defined.

(** X10. With inputs in the widgets' ranges, a division error from the
    solver cannot come from the mass flow: the lookups of the cycle were
    answered and the compressor's outlet enthalpy equals its inlet
    enthalpy. *)
Theorem division_por_cero_en_el_tablero (o : oraculo) (Ta Ti m : Q) :
  entradas_del_tablero Ta Ti m = true ->
  solve o Ta Ti m = Raise ZeroDivisionError ->
  exists l, responde_ciclo o Ta Ti l /\ l_h2 l == l_h1 l.
Proof.
  intros Hr Hs.
  pose proof (salto_termico_del_tablero_aux Ta Ti m Hr) as Hm.
  destruct (solve_ZeroDivisionError_inv o Ta Ti m Hs) as (l & Hc & Hw & _).
  exists l. split; [exact Hc|].
  unfold Trabajo_necesario in Hw.
  apply Qmult_integral in Hw as [Hz | Hz]; [lra | lra].
Qed.

(** The condenser at the interior temperature, inside the ranges. *)
Lemma division_por_cero_en_el_tablero_witness :
  exists l, responde_ciclo oraculo_lineal (-10) 5 l /\ l_h2 l == l_h1 l.
Proof.
  apply (division_por_cero_en_el_tablero oraculo_lineal (-10) 5 (1 # 10));
    reflexivity.
Defined.

(** ** The console program *)

Section ConsolaProps.

Variable float_de : string -> option Q.
Variable formato : nat -> Q -> string.
Variable texto_de : Q -> string.

Let principal' := principal float_de formato texto_de.

(** What the program does once three numbers have been read. *)
Lemma principal_tres_numeros (o : oraculo) (l1 l2 l3 : string)
    (resto : list string) (Ta Ti m : Q) :
  float_de l1 = Some Ta -> float_de l2 = Some Ti -> float_de l3 = Some m ->
  let p4 :=
    [ Escribe (nl ++ "--- CONFIGURACION DE LA SIMULACION ---")%string;
      Pregunta "1. Ingrese Temperatura Ambiente (C): ";
      Pregunta "2. Ingrese Temperatura Interior Objetivo (C): ";
      Pregunta "3. Ingrese Flujo Masico (kg/s): ";
      Escribe (nl ++ "Calculando...")%string ] in
  principal' o (l1 :: l2 :: l3 :: resto)
  = match solve o Ta Ti m with
    | Ok res =>
        Ejecucion (p4 ++ imprimir_resultados formato texto_de res Ta)
                  (consultas o Ta Ti m) Termina
    | Raise (ValueError _) =>
        Ejecucion (p4 ++ [Escribe mensaje_error]) (consultas o Ta Ti m)
                  Termina
    | Raise ZeroDivisionError =>
        Ejecucion p4 (consultas o Ta Ti m) Traza_ZeroDivisionError
    end.
Proof.
  intros E1 E2 E3. unfold principal', principal, leer_float, solve, consultas.
  rewrite E1, E2, E3.
  destruct (simular_refrigerador Ta Ti m o) as [qs [res | [c |]]];
    reflexivity.
Qed.

End ConsolaProps.

(** X11. A line that is not a number ends the console program at once:
    the error message is the last thing shown, no later prompt appears,
    the solver is not called (no query reaches the oracle) and the program
    ends normally. *)
Theorem entrada_no_numerica
    (float_de : string -> option Q) (formato : nat -> Q -> string)
    (texto_de : Q -> string) (o : oraculo)
    (previas : list string) (linea : string) (resto : list string) :
  (List.length previas < 3)%nat ->
  Forall (fun l => float_de l <> None) previas ->
  float_de linea = None ->
  let e := principal float_de formato texto_de o
                     (previas ++ linea :: resto) in
  fin e = Termina /\
  consultadas e = [] /\
  last (pantalla e) (Pregunta "") = Escribe mensaje_error /\
  List.length (pantalla e) = (List.length previas + 3)%nat.
Proof.
  intros Hn Hp Hl e. subst e.
  destruct previas as [| a [| b [| c previas]]];
    [ | | | cbn in Hn; lia ];
    repeat match goal with
           | H : Forall _ (_ :: _) |- _ => inversion H; clear H; subst
           end;
    repeat match goal with
           | H : float_de ?x <> None |- _ =>
               destruct (float_de x) eqn:?; [clear H | contradiction]
           end;
    unfold principal, leer_float; cbn [app];
    repeat match goal with
           | H : float_de _ = _ |- _ => rewrite H; clear H
           end;
    repeat split.
Qed.

Lemma entrada_no_numerica_witness :
  let e := principal float_de_ejemplo formato_ejemplo texto_ejemplo
                     oraculo_lineal (["25"%string] ++ "frio"%string :: []) in
  fin e = Termina /\
  consultadas e = [] /\
  last (pantalla e) (Pregunta "") = Escribe mensaje_error /\
  List.length (pantalla e) = (List.length ["25"%string] + 3)%nat.
Proof.
  apply (entrada_no_numerica float_de_ejemplo formato_ejemplo texto_ejemplo
           oraculo_lineal ["25"%string] "frio"%string []).
  - cbn. lia.
  - repeat constructor. discriminate.
  - reflexivity.
Defined.

(** X12. When the three numbers are read and a lookup of the solver
    fails, the console program shows the very message it shows for a line
    that is not a number, prints no result and ends normally: the one
    handler catches both. *)
Theorem fallo_de_consulta_en_consola
    (float_de : string -> option Q) (formato : nat -> Q -> string)
    (texto_de : Q -> string) (o : oraculo)
    (l1 l2 l3 : string) (resto : list string) (Ta Ti m : Q) (c : consulta) :
  float_de l1 = Some Ta -> float_de l2 = Some Ti -> float_de l3 = Some m ->
  solve o Ta Ti m = Raise (ValueError c) ->
  let e := principal float_de formato texto_de o (l1 :: l2 :: l3 :: resto) in
  fin e = Termina /\
  last (pantalla e) (Pregunta "") = Escribe mensaje_error /\
  List.length (pantalla e) = 6%nat /\
  consultadas e = consultas o Ta Ti m.
Proof.
  intros E1 E2 E3 Hs e. subst e.
  rewrite (principal_tres_numeros float_de formato texto_de o l1 l2 l3 resto
             Ta Ti m E1 E2 E3).
  rewrite Hs. repeat split.
Qed.

Lemma fallo_de_consulta_en_consola_witness :
  let e := principal float_de_ejemplo formato_ejemplo texto_ejemplo
                     (oraculo_hasta 300) ["25"; "4"; "0.1"]%string in
  fin e = Termina /\
  last (pantalla e) (Pregunta "") = Escribe mensaje_error /\
  List.length (pantalla e) = 6%nat /\
  consultadas e = consultas (oraculo_hasta 300) 25 4 (1 # 10).
Proof.
  apply (fallo_de_consulta_en_consola float_de_ejemplo formato_ejemplo
           texto_ejemplo (oraculo_hasta 300) "25" "4" "0.1" [] 25 4 (1 # 10)
           (Consulta prop_P prop_T (T_condensacion (degC_to_kelvin 25))
                     prop_Q 0));
    reflexivity.
Defined.

(** X13. When the three numbers are read, the console program ends in an
    uncaught division error exactly when the solver raises it (a zero mass
    flow with answered lookups, for one); nothing is shown after
    "Calculando...", neither a result nor the error message. *)
Theorem division_por_cero_en_consola
    (float_de : string -> option Q) (formato : nat -> Q -> string)
    (texto_de : Q -> string) (o : oraculo)
    (l1 l2 l3 : string) (resto : list string) (Ta Ti m : Q) :
  float_de l1 = Some Ta -> float_de l2 = Some Ti -> float_de l3 = Some m ->
  let e := principal float_de formato texto_de o (l1 :: l2 :: l3 :: resto) in
  (fin e = Traza_ZeroDivisionError <->
   solve o Ta Ti m = Raise ZeroDivisionError) /\
  (fin e = Traza_ZeroDivisionError ->
   last (pantalla e) (Pregunta "") = Escribe (nl ++ "Calculando...")%string
   /\ List.length (pantalla e) = 5%nat).
Proof.
  intros E1 E2 E3 e. subst e.
  rewrite (principal_tres_numeros float_de formato texto_de o l1 l2 l3 resto
             Ta Ti m E1 E2 E3).
  destruct (solve o Ta Ti m) as [res | [c |]]; cbn [fin pantalla].
  - split; [split; discriminate | discriminate].
  - split; [split; discriminate | discriminate].
  - split; [split; reflexivity | intros _; split; reflexivity].
Qed.

Lemma division_por_cero_en_consola_witness :
  let e := principal float_de_ejemplo formato_ejemplo texto_ejemplo
                     oraculo_lineal ["25"; "4"; "0"]%string in
  fin e = Traza_ZeroDivisionError /\
  (fin e = Traza_ZeroDivisionError <->
   solve oraculo_lineal 25 4 0 = Raise ZeroDivisionError) /\
  (fin e = Traza_ZeroDivisionError ->
   last (pantalla e) (Pregunta "") = Escribe (nl ++ "Calculando...")%string
   /\ List.length (pantalla e) = 5%nat).
Proof.
  split; [reflexivity|].
  apply (division_por_cero_en_consola float_de_ejemplo formato_ejemplo
           texto_ejemplo oraculo_lineal "25" "4" "0" [] 25 4 0);
    reflexivity.
Defined.

(** ** Sequencing and loops *)

Lemma bind_Ok_inv {A B : Type} (m : M A) (f : A -> M B) (o : oraculo) (b : B) :
  snd (bind m f o) = Ok b ->
  exists a, snd (m o) = Ok a /\ snd (f a o) = Ok b.
Proof.
  unfold bind. destruct (m o) as [l1 [a | e]]; [|discriminate].
  destruct (f a o) as [l2 r] eqn:Ef. cbn [snd]. intros ->.
  exists a. split; [reflexivity|]. rewrite Ef. reflexivity.
Qed.

Lemma bind_consulta_inv {A B : Type} (m : M A) (f : A -> M B) (o : oraculo)
    (c : consulta) :
  In c (fst (bind m f o)) ->
  In c (fst (m o)) \/ exists a, snd (m o) = Ok a /\ In c (fst (f a o)).
Proof.
  unfold bind. destruct (m o) as [l1 [a | e]]; cbn [fst snd].
  - destruct (f a o) as [l2 r] eqn:Ef. cbn [fst]. intros Hc.
    apply in_app_or in Hc as [Hc | Hc]; [left; exact Hc|].
    right. exists a. rewrite Ef. split; [reflexivity | exact Hc].
  - intros Hc. left. exact Hc.
Qed.

Lemma para_cada_Ok {A B : Type} (f : A -> M B) (o : oraculo) (l : list A) :
  forall bs, snd (para_cada f l o) = Ok bs ->
             Forall2 (fun a b => snd (f a o) = Ok b) l bs.
Proof.
  induction l as [| a l IH]; cbn [para_cada]; intros bs Hs.
  - injection Hs as <-. constructor.
  - apply bind_Ok_inv in Hs as (b & Hb & Hs).
    apply bind_Ok_inv in Hs as (bs' & Hbs & Hs).
    injection Hs as <-. constructor; [exact Hb | apply IH; exact Hbs].
Qed.

Lemma para_cada_consulta {A B : Type} (f : A -> M B) (o : oraculo)
    (l : list A) (c : consulta) :
  In c (fst (para_cada f l o)) -> exists a, In a l /\ In c (fst (f a o)).
Proof.
  induction l as [| a l IH]; cbn [para_cada]; intros Hc.
  - destruct Hc.
  - apply bind_consulta_inv in Hc as [Hc | (b & _ & Hc)].
    + exists a. split; [left; reflexivity | exact Hc].
    + apply bind_consulta_inv in Hc as [Hc | (bs & _ & Hc)]; [|destruct Hc].
      destruct (IH Hc) as (a' & Ha' & Hc'). exists a'.
      split; [right; exact Ha' | exact Hc'].
Qed.

(** ** The temperature grid *)

Lemma linspace_length (a b : Q) (n : nat) : List.length (linspace a b n) = n.
Proof.
  destruct n as [| [| n]]; [reflexivity | reflexivity |].
  unfold linspace. rewrite length_app, length_map, length_seq.
  cbn [List.length]. lia.
Qed.

Lemma linspace_entre (a b : Q) (n : nat) (t : Q) :
  a <= b -> In t (linspace a b (S (S n))) -> a <= t <= b.
Proof.
  intros Hab Ht. unfold linspace in Ht.
  apply in_app_or in Ht as [Ht | [<- | []]]; [|lra].
  apply in_map_iff in Ht as (i & <- & Hi). apply in_seq in Hi.
  set (d := inject_Z (Z.of_nat (S n))).
  set (x := inject_Z (Z.of_nat i)).
  assert (Hd : 0 < d).
  { unfold d. change 0 with (inject_Z 0). rewrite <- Zlt_Qlt. lia. }
  assert (Hx0 : 0 <= x).
  { unfold x. change 0 with (inject_Z 0). rewrite <- Zle_Qle. lia. }
  assert (Hxd : x <= d).
  { unfold x, d. rewrite <- Zle_Qle. lia. }
  assert (Hs : 0 <= (b - a) / d).
  { apply Qle_shift_div_l; [exact Hd | lra]. }
  assert (Hds : d * ((b - a) / d) == b - a).
  { field. intros Hz. rewrite Hz in Hd. lra. }
  assert (H1 : 0 <= x * ((b - a) / d)).
  { apply Qmult_le_0_compat; assumption. }
  assert (H2 : x * ((b - a) / d) <= d * ((b - a) / d)).
  { apply Qmult_le_compat_r; assumption. }
  lra.
Qed.

(** ** The saturation dome *)

(** One sample of a curve: the oracle's answer, rescaled. *)
Lemma muestra_Ok (out : propiedad) (q k t v : Q) (o : oraculo) :
  snd ((x <- PropsSI out prop_T t prop_Q q ;; ret (x / k)) o) = Ok v ->
  Some v = option_map (fun x => x / k) (o (Consulta out prop_T t prop_Q q)).
Proof.
  unfold bind, PropsSI, ret.
  destruct (o (Consulta out prop_T t prop_Q q)); cbn; [|discriminate].
  intros Hv. injection Hv as <-. reflexivity.
Qed.

Lemma curva_Ok (out : propiedad) (q k : Q) (o : oraculo) (ts vs : list Q) :
  snd (para_cada (fun t => x <- PropsSI out prop_T t prop_Q q ;; ret (x / k))
                 ts o) = Ok vs ->
  map Some vs
  = map (fun t => option_map (fun x => x / k)
                             (o (Consulta out prop_T t prop_Q q))) ts.
Proof.
  intros Hs. apply para_cada_Ok in Hs.
  induction Hs as [| t v ts vs Hv _ IH]; [reflexivity|].
  cbn [map]. rewrite IH. f_equal. apply muestra_Ok. exact Hv.
Qed.

Lemma curva_consulta (out : propiedad) (q k : Q) (o : oraculo) (ts : list Q)
    (c : consulta) :
  In c (fst (para_cada
               (fun t => x <- PropsSI out prop_T t prop_Q q ;; ret (x / k))
               ts o)) ->
  exists t, In t ts /\ c = Consulta out prop_T t prop_Q q.
Proof.
  intros Hc. apply para_cada_consulta in Hc as (t & Ht & Hc).
  exists t. split; [exact Ht|].
  unfold bind, PropsSI, ret in Hc.
  destruct (o (Consulta out prop_T t prop_Q q)); cbn in Hc;
    destruct Hc as [<- | []]; reflexivity.
Qed.

(** The shape of every query of the dome computation. *)
Lemma campana_consulta (T_crit : Q) (o : oraculo) (c : consulta) :
  In c (fst (calcular_campana_saturacion T_crit o)) ->
  exists t out q,
    In t (T_range T_crit) /\ (out = prop_H \/ out = prop_P) /\
    (q = 0 \/ q = 1) /\ c = Consulta out prop_T t prop_Q q.
Proof.
  unfold calcular_campana_saturacion. intros Hc.
  repeat match type of Hc with
         | In _ (fst (bind _ _ _)) =>
             apply bind_consulta_inv in Hc as [Hc | (? & _ & Hc)]
         end;
    try (apply curva_consulta in Hc as (t & Ht & ->);
         exists t; do 2 eexists; repeat split; [exact Ht | | ]; auto).
  destruct Hc.
Qed.

Lemma campana_Ok_inv (T_crit : Q) (o : oraculo)
    (h_liq p_liq h_vap p_vap : list Q) :
  snd (calcular_campana_saturacion T_crit o)
  = Ok (h_liq, p_liq, h_vap, p_vap) ->
  let curva out q k :=
    map (fun t => option_map (fun x => x / k)
                             (o (Consulta out prop_T t prop_Q q)))
        (T_range T_crit) in
  map Some h_liq = curva prop_H 0 1000 /\
  map Some p_liq = curva prop_P 0 100000 /\
  map Some h_vap = curva prop_H 1 1000 /\
  map Some p_vap = curva prop_P 1 100000.
Proof.
  intros Hs curva. unfold calcular_campana_saturacion in Hs.
  apply bind_Ok_inv in Hs as (hl & H1 & Hs).
  apply bind_Ok_inv in Hs as (pl & H2 & Hs).
  apply bind_Ok_inv in Hs as (hv & H3 & Hs).
  apply bind_Ok_inv in Hs as (pv & H4 & Hs).
  injection Hs as <- <- <- <-.
  apply curva_Ok in H1, H2, H3, H4.
  repeat split; assumption.
Qed.

(** X14. When the dome computation returns, its four curves are sampled
    on the same hundred temperatures: the i-th entry of each list is the
    oracle's answer at the i-th temperature of the grid (enthalpies divided
    by 1000, pressures by 100000; liquid at quality 0, vapor at quality 1),
    so each list has exactly one hundred entries. *)
Theorem campana_alineada (T_crit : Q) (o : oraculo)
    (h_liq p_liq h_vap p_vap : list Q) :
  snd (calcular_campana_saturacion T_crit o)
  = Ok (h_liq, p_liq, h_vap, p_vap) ->
  let curva out q k :=
    map (fun t => option_map (fun x => x / k)
                             (o (Consulta out prop_T t prop_Q q)))
        (T_range T_crit) in
  (map Some h_liq = curva prop_H 0 1000 /\
   map Some p_liq = curva prop_P 0 100000 /\
   map Some h_vap = curva prop_H 1 1000 /\
   map Some p_vap = curva prop_P 1 100000) /\
  (List.length h_liq = 100 /\ List.length p_liq = 100 /\
   List.length h_vap = 100 /\ List.length p_vap = 100)%nat.
Proof.
  intros Hs curva.
  apply campana_Ok_inv in Hs as (H1 & H2 & H3 & H4).
  assert (Hn : forall (vs : list Q) out q k,
             map Some vs = curva out q k -> List.length vs = 100%nat).
  { intros vs out q k E. apply (f_equal (@List.length _)) in E.
    unfold curva in E. rewrite !length_map in E. rewrite E.
    apply linspace_length. }
  split; [repeat split; assumption|].
  repeat split; eapply Hn; eassumption.
Qed.

Lemma campana_alineada_witness :
  exists h_liq p_liq h_vap p_vap,
    snd (calcular_campana_saturacion T_crit_ejemplo oraculo_lineal)
    = Ok (h_liq, p_liq, h_vap, p_vap) /\
    let curva out q k :=
      map (fun t => option_map (fun x => x / k)
                               (oraculo_lineal
                                  (Consulta out prop_T t prop_Q q)))
          (T_range T_crit_ejemplo) in
    (map Some h_liq = curva prop_H 0 1000 /\
     map Some p_liq = curva prop_P 0 100000 /\
     map Some h_vap = curva prop_H 1 1000 /\
     map Some p_vap = curva prop_P 1 100000) /\
    (List.length h_liq = 100 /\ List.length p_liq = 100 /\
     List.length h_vap = 100 /\ List.length p_vap = 100)%nat.
Proof.
  do 4 eexists. split.
  - reflexivity.
  - apply (campana_alineada T_crit_ejemplo oraculo_lineal). reflexivity.
Defined.

(** X15. Every query of the dome computation, whether it completes or
    not, asks for an enthalpy or a pressure on the saturation line (keyed
    by temperature and quality 0 or 1), at a temperature of the grid; when
    the critical temperature is at least 0.1 K above -60 C, that
    temperature lies between -60 C and 0.1 K under the critical
    temperature, so the oracle is never asked at or above the critical
    point. *)
Theorem campana_bajo_el_punto_critico (T_crit : Q) (o : oraculo)
    (c : consulta) :
  -60 + (27315 # 100) <= T_crit - (1 # 10) ->
  In c (fst (calcular_campana_saturacion T_crit o)) ->
  (salida c = prop_H \/ salida c = prop_P) /\
  nombre1 c = prop_T /\ nombre2 c = prop_Q /\
  (valor2 c = 0 \/ valor2 c = 1) /\
  -60 + (27315 # 100) <= valor1 c <= T_crit - (1 # 10) /\
  valor1 c < T_crit.
Proof.
  intros Hr Hc.
  apply campana_consulta in Hc as (t & out & q & Ht & Hout & Hq & ->).
  cbn [salida nombre1 nombre2 valor1 valor2].
  apply (linspace_entre _ _ 98 t Hr) in Ht.
  repeat split; try assumption; lra.
Qed.

Lemma campana_bajo_el_punto_critico_witness :
  let c := Consulta prop_P prop_T (T_crit_ejemplo - (1 # 10)) prop_Q 1 in
  (salida c = prop_H \/ salida c = prop_P) /\
  nombre1 c = prop_T /\ nombre2 c = prop_Q /\
  (valor2 c = 0 \/ valor2 c = 1) /\
  -60 + (27315 # 100) <= valor1 c <= T_crit_ejemplo - (1 # 10) /\
  valor1 c < T_crit_ejemplo.
Proof.
  intros c.
  apply (campana_bajo_el_punto_critico T_crit_ejemplo oraculo_lineal c).
  - vm_compute. discriminate.
  - apply (nth_error_In _ 399%nat). vm_compute. reflexivity.
Defined.

Lemma bind_fst_Ok {A B : Type} (m : M A) (f : A -> M B) (o : oraculo) (a : A) :
  snd (m o) = Ok a -> fst (bind m f o) = fst (m o) ++ fst (f a o).
Proof.
  unfold bind. destruct (m o) as [l1 r]. cbn [snd fst]. intros ->.
  destruct (f a o) as [l2 r2]. reflexivity.
Qed.

Lemma bind_sin_division {A B : Type} (m : M A) (f : A -> M B) (o : oraculo) :
  snd (m o) <> Raise ZeroDivisionError ->
  (forall a, snd (f a o) <> Raise ZeroDivisionError) ->
  snd (bind m f o) <> Raise ZeroDivisionError.
Proof.
  unfold bind. intros Hm Hf. destruct (m o) as [l1 [a | e]]; cbn [snd] in *.
  - specialize (Hf a). destruct (f a o) as [l2 r]. exact Hf.
  - intros He. apply Hm. injection He as ->. reflexivity.
Qed.

Lemma curva_sin_division (out : propiedad) (q k : Q) (o : oraculo)
    (ts : list Q) :
  snd (para_cada (fun t => x <- PropsSI out prop_T t prop_Q q ;; ret (x / k))
                 ts o) <> Raise ZeroDivisionError.
Proof.
  induction ts as [| t ts IH]; cbn [para_cada]; [discriminate|].
  apply bind_sin_division.
  - unfold bind, PropsSI, ret. destruct (o _); discriminate.
  - intros v. apply bind_sin_division; [exact IH | discriminate].
Qed.

Lemma curva_length (out : propiedad) (q k : Q) (o : oraculo) :
  forall ts vs,
    snd (para_cada
           (fun t => x <- PropsSI out prop_T t prop_Q q ;; ret (x / k))
           ts o) = Ok vs ->
    List.length
      (fst (para_cada
              (fun t => x <- PropsSI out prop_T t prop_Q q ;; ret (x / k))
              ts o)) = List.length ts.
Proof.
  induction ts as [| t ts IH]; cbn [para_cada]; intros vs Hs; [reflexivity|].
  apply bind_Ok_inv in Hs as (v & Hv & Hs).
  apply bind_Ok_inv in Hs as (vs' & Hvs & _).
  rewrite (bind_fst_Ok _ _ o v Hv), (bind_fst_Ok _ _ o vs' Hvs).
  rewrite !length_app, (IH vs' Hvs).
  unfold bind, PropsSI, ret in *. destruct (o _); cbn in *; [lia|discriminate].
Qed.

Lemma curva_respondida (F : Q -> option Q) (ts vs : list Q) (t : Q) :
  map Some vs = map F ts -> In t ts -> F t <> None.
Proof.
  intros E Ht. apply (in_map F) in Ht. rewrite <- E in Ht.
  apply in_map_iff in Ht as (v & <- & _). discriminate.
Qed.

(** X16. The dome computation returns exactly when the oracle answers
    the enthalpy and pressure queries at quality 0 and 1 for every
    temperature of the grid; it then has sent four hundred queries.  It
    never ends in a division error. *)
Theorem campana_completa (T_crit : Q) (o : oraculo) :
  ((exists res, snd (calcular_campana_saturacion T_crit o) = Ok res) <->
   (forall t out q,
      In t (T_range T_crit) -> out = prop_H \/ out = prop_P ->
      q = 0 \/ q = 1 ->
      o (Consulta out prop_T t prop_Q q) <> None)) /\
  (forall res,
     snd (calcular_campana_saturacion T_crit o) = Ok res ->
     List.length (fst (calcular_campana_saturacion T_crit o)) = 400%nat) /\
  snd (calcular_campana_saturacion T_crit o) <> Raise ZeroDivisionError.
Proof.
  assert (Hz : snd (calcular_campana_saturacion T_crit o)
               <> Raise ZeroDivisionError).
  { unfold calcular_campana_saturacion.
    repeat (apply bind_sin_division;
            [apply curva_sin_division | intros ?]).
    discriminate. }
  split; [split|split; [|exact Hz]].
  - intros ([[[hl pl] hv] pv] & Hs) t out q Ht Hout Hq.
    apply campana_Ok_inv in Hs as (E1 & E2 & E3 & E4).
    assert (Hn : forall k, option_map (fun x => x / k)
                             (o (Consulta out prop_T t prop_Q q)) <> None ->
                           o (Consulta out prop_T t prop_Q q) <> None).
    { intros k. destruct (o _); [discriminate | intros []; reflexivity]. }
    destruct Hout as [-> | ->], Hq as [-> | ->].
    + apply (Hn 1000).
      exact (curva_respondida
               (fun t => option_map (fun x => x / 1000)
                           (o (Consulta prop_H prop_T t prop_Q 0)))
               _ hl t E1 Ht).
    + apply (Hn 1000).
      exact (curva_respondida
               (fun t => option_map (fun x => x / 1000)
                           (o (Consulta prop_H prop_T t prop_Q 1)))
               _ hv t E3 Ht).
    + apply (Hn 100000).
      exact (curva_respondida
               (fun t => option_map (fun x => x / 100000)
                           (o (Consulta prop_P prop_T t prop_Q 0)))
               _ pl t E2 Ht).
    + apply (Hn 100000).
      exact (curva_respondida
               (fun t => option_map (fun x => x / 100000)
                           (o (Consulta prop_P prop_T t prop_Q 1)))
               _ pv t E4 Ht).
  - intros Hall.
    assert (Hf : registro_fiel (calcular_campana_saturacion T_crit)).
    { unfold calcular_campana_saturacion.
      repeat (apply registro_fiel_bind;
              [apply registro_fiel_para_cada; intros ?; fiel | intros ?]).
      apply registro_fiel_ret. }
    specialize (Hf o).
    destruct (calcular_campana_saturacion T_crit o) as [l [res | [c |]]] eqn:E.
    + exists res. reflexivity.
    + exfalso. destruct Hf as (Hc & l' & -> & _).
      assert (Hin : In c (fst (calcular_campana_saturacion T_crit o))).
      { rewrite E. cbn [fst]. apply in_or_app. right. left. reflexivity. }
      apply campana_consulta in Hin as (t & out & q & Ht & Hout & Hq & ->).
      exact (Hall t out q Ht Hout Hq Hc).
    + exfalso. apply Hz. reflexivity.
  - intros res Hs. unfold calcular_campana_saturacion in *.
    apply bind_Ok_inv in Hs as (hl & H1 & Hs).
    apply bind_Ok_inv in Hs as (pl & H2 & Hs).
    apply bind_Ok_inv in Hs as (hv & H3 & Hs).
    apply bind_Ok_inv in Hs as (pv & H4 & _).
    rewrite (bind_fst_Ok _ _ o hl H1), (bind_fst_Ok _ _ o pl H2),
            (bind_fst_Ok _ _ o hv H3), (bind_fst_Ok _ _ o pv H4).
    rewrite !length_app.
    rewrite (curva_length _ _ _ o _ hl H1), (curva_length _ _ _ o _ pl H2),
            (curva_length _ _ _ o _ hv H3), (curva_length _ _ _ o _ pv H4).
    unfold T_range. rewrite linspace_length. reflexivity.
Qed.

(** ** More on complete runs and on the console program *)

(** X17. A complete run of the solver sends twelve queries, all answered;
    the ninth and the twelfth are the same discharge-temperature query, and
    the first, second and seventh all ask at the interior saturation
    point (temperature of state 1, quality 1). *)
Theorem consultas_de_una_corrida (o : oraculo) (Ta Ti m : Q) (r : resultados) :
  solve o Ta Ti m = Ok r ->
  List.length (consultas o Ta Ti m) = 12%nat /\
  Forall (respondida o) (consultas o Ta Ti m) /\
  nth_error (consultas o Ta Ti m) 8
  = Some (Consulta prop_T prop_H (h (estado2 (states r)))
                   prop_P (P (estado2 (states r)))) /\
  nth_error (consultas o Ta Ti m) 11 = nth_error (consultas o Ta Ti m) 8 /\
  Forall (fun c => nombre1 c = prop_T /\ valor1 c = T (estado1 (states r)) /\
                   nombre2 c = prop_Q /\ valor2 c = 1)
         (map (fun i => nth i (consultas o Ta Ti m)
                            (Consulta prop_H prop_H 0 prop_H 0))
              [0; 1; 6]%nat).
Proof.
  intros Hs.
  assert (Hf : Forall (respondida o) (consultas o Ta Ti m)).
  { pose proof (registro_fiel_simular Ta Ti m o) as Hf.
    unfold solve, consultas in *.
    destruct (simular_refrigerador Ta Ti m o) as [qs res].
    cbn [fst snd] in *. subst res. exact Hf. }
  apply solve_Ok_inv in Hs as (l & Hc & Hi & Hw & ->).
  destruct Hc as (E1 & E2 & E3 & E4 & E5 & E6 & E7 & E8).
  destruct Hi as (E9 & E10 & E11).
  split; [|split; [exact Hf|]]; clear Hf.
  - desplegar. rewrite E1, E2, E3, E4, E5, E6, E7, E8.
    destruct (Qeq_bool _ _) eqn:Ediv;
      [apply Qeq_bool_iff in Ediv; contradiction|].
    rewrite E9, E10, E11. reflexivity.
  - desplegar. rewrite E1, E2, E3, E4, E5, E6, E7, E8.
    destruct (Qeq_bool _ _) eqn:Ediv;
      [apply Qeq_bool_iff in Ediv; contradiction|].
    rewrite E9, E10, E11. cbn. repeat split; repeat constructor.
Qed.

Lemma consultas_de_una_corrida_witness :
  exists r,
    solve oraculo_lineal 25 4 (1 # 10) = Ok r /\
    List.length (consultas oraculo_lineal 25 4 (1 # 10)) = 12%nat /\
    Forall (respondida oraculo_lineal)
           (consultas oraculo_lineal 25 4 (1 # 10)) /\
    nth_error (consultas oraculo_lineal 25 4 (1 # 10)) 8
    = Some (Consulta prop_T prop_H (h (estado2 (states r)))
                     prop_P (P (estado2 (states r)))) /\
    nth_error (consultas oraculo_lineal 25 4 (1 # 10)) 11
    = nth_error (consultas oraculo_lineal 25 4 (1 # 10)) 8 /\
    Forall (fun c => nombre1 c = prop_T /\
                     valor1 c = T (estado1 (states r)) /\
                     nombre2 c = prop_Q /\ valor2 c = 1)
           (map (fun i => nth i (consultas oraculo_lineal 25 4 (1 # 10))
                              (Consulta prop_H prop_H 0 prop_H 0))
                [0; 1; 6]%nat).
Proof.
  eexists. split; [reflexivity|].
  apply (consultas_de_una_corrida oraculo_lineal 25 4 (1 # 10)).
  reflexivity.
Defined.

(** X18. When the three numbers are read and the solver returns, the
    console program ends normally having shown eleven items, the last six
    being the report of the solver's own result headed by the ambient
    temperature as read, and the queries sent are those of that one solver
    call. *)
Theorem corrida_en_consola
    (float_de : string -> option Q) (formato : nat -> Q -> string)
    (texto_de : Q -> string) (o : oraculo)
    (l1 l2 l3 : string) (resto : list string) (Ta Ti m : Q)
    (r : resultados) :
  float_de l1 = Some Ta -> float_de l2 = Some Ti -> float_de l3 = Some m ->
  solve o Ta Ti m = Ok r ->
  let e := principal float_de formato texto_de o (l1 :: l2 :: l3 :: resto) in
  fin e = Termina /\
  List.length (pantalla e) = 11%nat /\
  skipn 5 (pantalla e) = imprimir_resultados formato texto_de r Ta /\
  consultadas e = consultas o Ta Ti m /\
  ~ In (Escribe mensaje_error) (pantalla e).
Proof.
  intros E1 E2 E3 Hs e. subst e.
  rewrite (principal_tres_numeros float_de formato texto_de o l1 l2 l3 resto
             Ta Ti m E1 E2 E3).
  rewrite Hs. repeat split.
  cbn. intros H.
  repeat (destruct H as [H | H]; [discriminate H|]).
  exact H.
Qed.

Lemma corrida_en_consola_witness :
  exists r,
    solve oraculo_lineal 25 4 (1 # 10) = Ok r /\
    let e := principal float_de_ejemplo formato_ejemplo texto_ejemplo
                       oraculo_lineal ["25"; "4"; "0.1"]%string in
    fin e = Termina /\
    List.length (pantalla e) = 11%nat /\
    skipn 5 (pantalla e)
    = imprimir_resultados formato_ejemplo texto_ejemplo r 25 /\
    consultadas e = consultas oraculo_lineal 25 4 (1 # 10) /\
    ~ In (Escribe mensaje_error) (pantalla e).
Proof.
  eexists. split; [reflexivity|].
  apply (corrida_en_consola float_de_ejemplo formato_ejemplo texto_ejemplo
           oraculo_lineal "25" "4" "0.1" [] 25 4 (1 # 10));
    reflexivity.
Defined.

(** X19. When the input ends before three numbers have been read (an
    empty input, for one), the console program stops at the pending prompt
    with the end-of-input error, which its handler does not catch; nothing
    was computed and no error message is shown. *)
Theorem entrada_incompleta
    (float_de : string -> option Q) (formato : nat -> Q -> string)
    (texto_de : Q -> string) (o : oraculo) (entradas : list string) :
  (List.length entradas < 3)%nat ->
  Forall (fun l => float_de l <> None) entradas ->
  let e := principal float_de formato texto_de o entradas in
  fin e = Traza_EOFError /\
  consultadas e = [] /\
  List.length (pantalla e) = (List.length entradas + 2)%nat /\
  ~ In (Escribe mensaje_error) (pantalla e).
Proof.
  intros Hn Hp e. subst e.
  destruct entradas as [| a [| b [| c entradas]]];
    [ | | | cbn in Hn; lia ];
    repeat match goal with
           | H : Forall _ (_ :: _) |- _ => inversion H; clear H; subst
           end;
    repeat match goal with
           | H : float_de ?x <> None |- _ =>
               destruct (float_de x) eqn:?; [clear H | contradiction]
           end;
    unfold principal, leer_float;
    repeat match goal with
           | H : float_de _ = _ |- _ => rewrite H; clear H
           end;
    (repeat split; cbn; intros H;
     repeat (destruct H as [H | H]; [discriminate H|]); exact H).
Qed.

Lemma entrada_incompleta_witness :
  let e := principal float_de_ejemplo formato_ejemplo texto_ejemplo
                     oraculo_lineal ["25"; "4"]%string in
  fin e = Traza_EOFError /\
  consultadas e = [] /\
  List.length (pantalla e) = (List.length ["25"; "4"]%string + 2)%nat /\
  ~ In (Escribe mensaje_error) (pantalla e).
Proof.
  apply (entrada_incompleta float_de_ejemplo formato_ejemplo texto_ejemplo
           oraculo_lineal ["25"; "4"]%string).
  - cbn. lia.
  - repeat constructor; discriminate.
Defined.

(** ** The arithmetic of the metrics, on machine numbers *)

Module FlotanteProps.

Import Flotante.
#[local] Set Warnings "-inexact-float".
Local Open Scope float_scope.

Ltac desplegar_f :=
  unfold solve, simular_refrigerador, bind, PropsSI, truediv, ret.

(** Follow the successful branch of every lookup and of the division that
    hypothesis [H] still mentions. *)
Ltac leer_f H :=
  repeat match type of H with
         | context [match ?o ?c with Some _ => _ | None => _ end] =>
             let v := fresh "v" in
             let E := fresh "E" in
             let F := fresh "F" in
             destruct (o c) as [v|] eqn:E; cbn [fst snd] in H;
             [ destruct (is_finite v) eqn:F; cbn [fst snd] in H;
               [ | discriminate H ]
             | discriminate H ]
         | context [if PrimFloat.eqb ?a ?b then _ else _] =>
             let E := fresh "Ediv" in
             destruct (PrimFloat.eqb a b) eqn:E; cbn [fst snd] in H;
             [ discriminate H | ]
         end.

(** What a run that returns has read and computed. *)
Lemma solve_f_Ok_inv (o : oraculo) (Ta Ti m : float) (r : resultados) :
  solve o Ta Ti m = Ok r ->
  exists h1 s1 Pc h2 h3 T3 P4 x4 T2 s3 s4,
    (Trabajo_necesario m h1 h2 =? 0) = false /\
    r = {| scalar :=
             {| Trabajo_Compresor_kW := W_to_kW (Trabajo_necesario m h1 h2);
                Calor_Extraido_kW := W_to_kW (Q_evap m h1 h3);
                COP := Q_evap m h1 h3 / Trabajo_necesario m h1 h2;
                Calidad_Evap := x4;
                Temp_Descarga_C := kelvin_to_degC T2;
                Flujo_Masico_kg_s := m |};
           states :=
             {| estado1 := Estado P4 (degC_to_kelvin Ti) h1 s1
                                  "Entrada Compresor";
                estado2 := Estado Pc T2 h2 s1 "Entrada Condensador";
                estado3 := Estado Pc T3 h3 s3 "Salida Condensador";
                estado4 := Estado P4 (degC_to_kelvin Ti) h3 s4
                                  "Entrada Evaporador" |} |} /\
    o (Consulta prop_H prop_T (degC_to_kelvin Ti) prop_Q 1) = Some h1 /\
    o (Consulta prop_S prop_T (degC_to_kelvin Ti) prop_Q 1) = Some s1 /\
    o (Consulta prop_P prop_T (T_condensacion (degC_to_kelvin Ta)) prop_Q 0)
    = Some Pc /\
    o (Consulta prop_H prop_P Pc prop_S s1) = Some h2 /\
    o (Consulta prop_H prop_P Pc prop_Q 0) = Some h3 /\
    o (Consulta prop_T prop_P Pc prop_Q 0) = Some T3 /\
    o (Consulta prop_P prop_T (degC_to_kelvin Ti) prop_Q 1) = Some P4 /\
    o (Consulta prop_Q prop_P P4 prop_H h3) = Some x4 /\
    o (Consulta prop_T prop_H h2 prop_P Pc) = Some T2 /\
    o (Consulta prop_S prop_P Pc prop_Q 0) = Some s3 /\
    o (Consulta prop_S prop_P P4 prop_H h3) = Some s4.
Proof.
  intros Hs. revert Hs. desplegar_f. intros Hs. cbn [fst snd] in Hs.
  leer_f Hs. injection Hs as <-.
  exists v, v0, v1, v2, v3, v4, v5, v6, v7, v8, v9.
  repeat split; first [assumption | reflexivity].
Qed.

(** The values read do not depend on the mass flow: two runs that return
    at the same temperatures report the same four states. *)
Lemma estados_sin_flujo (o : oraculo) (Ta Ti m m' : float)
    (r r' : resultados) :
  solve o Ta Ti m = Ok r -> solve o Ta Ti m' = Ok r' ->
  states r' = states r.
Proof.
  intros Hs Hs'.
  apply solve_f_Ok_inv in Hs
    as (h1 & s1 & Pc & h2 & h3 & T3 & P4 & x4 & T2 & s3 & s4 & _ & -> &
        E1 & E2 & E3 & E4 & E5 & E6 & E7 & E8 & E9 & E10 & E11).
  apply solve_f_Ok_inv in Hs'
    as (h1' & s1' & Pc' & h2' & h3' & T3' & P4' & x4' & T2' & s3' & s4' & _
        & -> & F1 & F2 & F3 & F4 & F5 & F6 & F7 & F8 & F9 & F10 & F11).
  cbn [states].
  assert (h1' = h1) by congruence. assert (s1' = s1) by congruence.
  assert (Pc' = Pc) by congruence. assert (P4' = P4) by congruence.
  subst h1' s1' Pc' P4'.
  assert (h2' = h2) by congruence. assert (h3' = h3) by congruence.
  subst h2' h3'.
  assert (T3' = T3) by congruence. assert (T2' = T2) by congruence.
  assert (s3' = s3) by congruence. assert (s4' = s4) by congruence.
  subst. reflexivity.
Qed.

(** C2, as amended. Whenever the solver returns, the coefficient of
    performance it reports is the quotient, as the machine computes it, of
    the heat-extraction rate by the compressor work rate in watts, that is
    of m * (h1 - h4) by m * (h2 - h1) with the enthalpies of the returned
    states, the divisor comparing different from zero; the two reported
    rates are those same products multiplied by 0.001. *)
Theorem cop_cociente_en_vatios
    (o : oraculo) (Ta Ti m : float) (r : resultados) :
  solve o Ta Ti m = Ok r ->
  let e := states r in
  let trabajo := m * (h (estado2 e) - h (estado1 e)) in
  let calor := m * (h (estado1 e) - h (estado4 e)) in
  (trabajo =? 0) = false /\
  COP (scalar r) = calor / trabajo /\
  Trabajo_Compresor_kW (scalar r) = trabajo * 0.001 /\
  Calor_Extraido_kW (scalar r) = calor * 0.001.
Proof.
  intros Hs.
  apply solve_f_Ok_inv in Hs
    as (h1 & s1 & Pc & h2 & h3 & T3 & P4 & x4 & T2 & s3 & s4 & Hw & -> & _).
  repeat split. exact Hw.
Qed.

Lemma cop_cociente_en_vatios_witness :
  exists r,
    solve oraculo_lineal 25 4 0.1 = Ok r /\
    let e := states r in
    let trabajo := 0.1 * (h (estado2 e) - h (estado1 e)) in
    let calor := 0.1 * (h (estado1 e) - h (estado4 e)) in
    (trabajo =? 0) = false /\
    COP (scalar r) = calor / trabajo /\
    Trabajo_Compresor_kW (scalar r) = trabajo * 0.001 /\
    Calor_Extraido_kW (scalar r) = calor * 0.001.
Proof.
  eexists. split; [reflexivity|].
  apply (cop_cociente_en_vatios oraculo_lineal 25 4 0.1). reflexivity.
Defined.

(** The claim as it was stated fails on machine numbers.  With a mass
    flow of 1e308 both products overflow: the call returns, the reported
    coefficient is NaN, and it is not the quotient of the reported rates
    in any sense.  With an interior at the condensing temperature and a
    mass flow of 1e-311 the call returns a finite coefficient while the
    reported work rate is zero. *)
Lemma cop_distinto_del_cociente_informado :
  (exists r,
     solve oraculo_lineal 25 4 1e308 = Ok r /\
     is_nan (COP (scalar r)) = true /\
     (COP (scalar r)
      =? Calor_Extraido_kW (scalar r) / Trabajo_Compresor_kW (scalar r))
     = false) /\
  (exists r,
     solve oraculo_lineal 25 40 1e-311 = Ok r /\
     is_finite (COP (scalar r)) = true /\
     (Trabajo_Compresor_kW (scalar r) =? 0) = true /\
     is_finite
       (Calor_Extraido_kW (scalar r) / Trabajo_Compresor_kW (scalar r))
     = false).
Proof.
  split; eexists; (split; [reflexivity | repeat split]).
Qed.




(** C10, as amended. Whenever the solver returns, the reported coefficient
    of performance is the quotient, as the machine computes it, of
    m * (h1 - h4) by m * (h2 - h1), with the enthalpies of the returned
    states; those enthalpies are the same for every mass flow for which
    the solver returns, so the coefficient of any other such run is the
    same expression at its own mass flow. *)
Theorem cop_cociente_de_productos
    (o : oraculo) (Ta Ti m : float) (r : resultados) :
  solve o Ta Ti m = Ok r ->
  let e := states r in
  let dh_compresor := h (estado2 e) - h (estado1 e) in
  let dh_evaporador := h (estado1 e) - h (estado4 e) in
  COP (scalar r) = m * dh_evaporador / (m * dh_compresor) /\
  forall m' r',
    solve o Ta Ti m' = Ok r' ->
    states r' = states r /\
    COP (scalar r') = m' * dh_evaporador / (m' * dh_compresor).
Proof.
  intros Hs. cbn zeta. split.
  - apply solve_f_Ok_inv in Hs
      as (h1 & s1 & Pc & h2 & h3 & T3 & P4 & x4 & T2 & s3 & s4 & _ & -> & _).
    reflexivity.
  - intros m' r' Hs'.
    pose proof (estados_sin_flujo o Ta Ti m m' r r' Hs Hs') as He.
    split; [exact He|]. rewrite <- He.
    apply solve_f_Ok_inv in Hs'
      as (h1 & s1 & Pc & h2 & h3 & T3 & P4 & x4 & T2 & s3 & s4 & _ & -> & _).
    reflexivity.
Qed.

Lemma cop_cociente_de_productos_witness :
  exists r,
    solve oraculo_lineal 25 4 0.1 = Ok r /\
    let e := states r in
    let dh_compresor := h (estado2 e) - h (estado1 e) in
    let dh_evaporador := h (estado1 e) - h (estado4 e) in
    COP (scalar r) = 0.1 * dh_evaporador / (0.1 * dh_compresor) /\
    forall m' r',
      solve oraculo_lineal 25 4 m' = Ok r' ->
      states r' = states r /\
      COP (scalar r') = m' * dh_evaporador / (m' * dh_compresor).
Proof.
  eexists. split; [reflexivity|].
  apply (cop_cociente_de_productos oraculo_lineal 25 4 0.1). reflexivity.
Defined.

(** The claim as it was stated fails on machine numbers.  At a mass flow
    of 1e308 the call returns a NaN where (h1 - h4) / (h2 - h1) is an
    ordinary number; the coefficients returned at 0.07 and at 0.1 differ;
    and with the interior at the condensing temperature the call returns
    at 0.1 but raises the division error at 1e-320, a nonzero mass flow. *)
Lemma cop_depende_del_flujo :
  (exists r,
     solve oraculo_lineal 25 4 1e308 = Ok r /\
     let e := states r in
     let cociente := (h (estado1 e) - h (estado4 e))
                     / (h (estado2 e) - h (estado1 e)) in
     is_nan (COP (scalar r)) = true /\
     is_finite cociente = true /\
     (COP (scalar r) =? cociente) = false) /\
  (exists r r',
     solve oraculo_lineal 25 4 0.07 = Ok r /\
     solve oraculo_lineal 25 4 0.1 = Ok r' /\
     (COP (scalar r) =? COP (scalar r')) = false) /\
  (exists r, solve oraculo_lineal 25 40 0.1 = Ok r) /\
  (1e-320 =? 0) = false /\
  solve oraculo_lineal 25 40 1e-320 = Raise ZeroDivisionError.
Proof.
  split; [eexists; split; [reflexivity | repeat split]|].
  split; [do 2 eexists; split; [reflexivity|]; split; reflexivity|].
  split; [eexists; reflexivity|]. split; reflexivity.
Qed.

End FlotanteProps.
